(** * FuckAD rule merger: a shallow embedding of [fuck_ad_rule.py]

    The script downloads ad-blocking rule lists, drops comment and
    metadata lines, merges the remaining rules without duplicates, sorts
    them and writes them to a file under a short header.

    Python values are embedded as follows.
    - [str] is a list of Unicode code points ([N]); comparison of two
      strings is the lexicographic comparison of their code points, as
      in CPython.
    - [bytes] is a list of [byte].
    - an argument whose dynamic type the code inspects ([isinstance],
      [is None]) is a [pyobj].
    - a raised exception is the [Raise] case of [result]. *)

From Stdlib Require Import NArith ZArith.
From Stdlib.Strings Require Import Ascii String Byte.
From stdpp Require Import base decidable list sorting gmap.

Open Scope N_scope.

(** ** Strings *)

Abbreviation str := (list N) (only parsing).

(** A literal of the source, as code points. *)
Definition lit (s : string) : str :=
  List.map N_of_ascii (list_ascii_of_string s).

(** [str.isspace] for one code point: the characters CPython's
    [_PyUnicode_IsWhitespace] accepts; [str.strip()] removes exactly
    these. *)
Definition isspace (c : N) : bool :=
  ((9 <=? c) && (c <=? 13)) || ((28 <=? c) && (c <=? 32))
  || (c =? 133) || (c =? 160) || (c =? 5760)
  || ((8192 <=? c) && (c <=? 8202))
  || (c =? 8232) || (c =? 8233) || (c =? 8239) || (c =? 8287)
  || (c =? 12288).

Fixpoint lstrip (s : str) : str :=
  match s with
  | c :: s' => if isspace c then lstrip s' else s
  | [] => []
  end.

Definition rstrip (s : str) : str := reverse (lstrip (reverse s)).

(** [s.strip()] *)
Definition strip (s : str) : str := rstrip (lstrip s).

(** [s.startswith(prefix)] *)
Fixpoint startswith (s prefix : str) {struct prefix} : bool :=
  match prefix, s with
  | [], _ => true
  | p :: prefix', c :: s' => (c =? p) && startswith s' prefix'
  | _ :: _, [] => false
  end.

(** Truth value of a string: [not s] holds for the empty string only. *)
Definition py_not (s : str) : bool :=
  match s with [] => true | _ :: _ => false end.

Definition is_ascii (c : N) : bool := c <? 128.

Definition ascii_lower (c : N) : N :=
  if (65 <=? c) && (c <=? 90) then c + 32 else c.

(** Lexicographic comparison of code points: [a <= b] on [str]. *)
Fixpoint str_leb (a b : str) : bool :=
  match a, b with
  | [], _ => true
  | _ :: _, [] => false
  | x :: a', y :: b' =>
      if x <? y then true else if x =? y then str_leb a' b' else false
  end.

Definition str_le (a b : str) : Prop := str_leb a b = true.

Global Instance str_le_dec (a b : str) : Decision (str_le a b).
Proof. unfold str_le. apply _. Defined.

(** [list.sort()] on strings. *)
Definition list_sort (l : list str) : list str := merge_sort str_le l.

(** ** Dynamic values and exceptions *)

#[warnings="-register-all"]
Inductive pyobj : Type :=
  | PyNone
  | PyInt (z : Z)
  | PyStr (s : str)
  | PyList (items : list pyobj).

(** [UnicodeEncodeError] is kept apart from [ValueError], its base
    class, to tell the two apart in what a function raises. *)
Inductive exn : Type :=
  | ValueError | RuntimeError | TypeError | OSError | UnicodeEncodeError.

Inductive result (A : Type) : Type :=
  | Ok (a : A)
  | Raise (e : exn).
Global Arguments Ok {A} a.
Global Arguments Raise {A} e.

Definition is_list (o : pyobj) : bool :=
  match o with PyList _ => true | _ => false end.

(** ** Decoding the response body *)

Inductive encoding : Type := Utf8 | Utf8Sig | Latin1.

(** A continuation byte [10xxxxxx]. *)
Definition is_cont (c : N) : bool := (128 <=? c) && (c <=? 191).

(** Admissible second byte of a three-byte sequence with lead [c0]: no
    overlong forms and no surrogates. *)
Definition second3 (c0 c1 : N) : bool :=
  if c0 =? 224 then (160 <=? c1) && (c1 <=? 191)
  else if c0 =? 237 then (128 <=? c1) && (c1 <=? 159)
  else is_cont c1.

(** Admissible second byte of a four-byte sequence with lead [c0]: no
    overlong forms and nothing above U+10FFFF. *)
Definition second4 (c0 c1 : N) : bool :=
  if c0 =? 240 then (144 <=? c1) && (c1 <=? 191)
  else if c0 =? 244 then (128 <=? c1) && (c1 <=? 143)
  else is_cont c1.

(** [raw.decode("utf-8")] with the default [errors="strict"]; [None]
    stands for [UnicodeDecodeError]. *)
Fixpoint decode_utf8 (raw : list byte) : option str :=
  match raw with
  | [] => Some []
  | b0 :: r0 =>
      let c0 := Byte.to_N b0 in
      if c0 <? 128 then cons c0 <$> decode_utf8 r0
      else if (194 <=? c0) && (c0 <=? 223) then
        match r0 with
        | b1 :: r1 =>
            let c1 := Byte.to_N b1 in
            if is_cont c1
            then cons ((c0 - 192) * 64 + (c1 - 128)) <$> decode_utf8 r1
            else None
        | _ => None
        end
      else if (224 <=? c0) && (c0 <=? 239) then
        match r0 with
        | b1 :: b2 :: r2 =>
            let c1 := Byte.to_N b1 in
            let c2 := Byte.to_N b2 in
            if second3 c0 c1 && is_cont c2
            then cons ((c0 - 224) * 4096 + (c1 - 128) * 64 + (c2 - 128))
                   <$> decode_utf8 r2
            else None
        | _ => None
        end
      else if (240 <=? c0) && (c0 <=? 244) then
        match r0 with
        | b1 :: b2 :: b3 :: r3 =>
            let c1 := Byte.to_N b1 in
            let c2 := Byte.to_N b2 in
            let c3 := Byte.to_N b3 in
            if second4 c0 c1 && is_cont c2 && is_cont c3
            then cons ((c0 - 240) * 262144 + (c1 - 128) * 4096
                       + (c2 - 128) * 64 + (c3 - 128))
                   <$> decode_utf8 r3
            else None
        | _ => None
        end
      else None
  end.

(** [raw.decode("utf-8-sig")]: a leading byte order mark EF BB BF is
    dropped, the rest is UTF-8. *)
Definition decode_utf8_sig (raw : list byte) : option str :=
  match raw with
  | b0 :: b1 :: b2 :: rest =>
      if (Byte.to_N b0 =? 239) && (Byte.to_N b1 =? 187) && (Byte.to_N b2 =? 191)
      then decode_utf8 rest
      else decode_utf8 raw
  | _ => decode_utf8 raw
  end.

(** [raw.decode("latin-1")]: every byte is its own code point. *)
Definition decode_latin1 (raw : list byte) : option str :=
  Some (List.map Byte.to_N raw).

Definition decode (enc : encoding) (raw : list byte) : option str :=
  match enc with
  | Utf8 => decode_utf8 raw
  | Utf8Sig => decode_utf8_sig raw
  | Latin1 => decode_latin1 raw
  end.

(** The [for encoding in (...)] loop of [fetch_lines_from_url], with the
    variable [text] as accumulator; [break] returns at once. *)
Fixpoint decode_loop (encodings : list encoding) (raw_data : list byte)
    (text : str) : str :=
  match encodings with
  | [] => text
  | enc :: encodings' =>
      match decode enc raw_data with
      | Some text' =>
          if py_not text' then decode_loop encodings' raw_data text'
          else text'
      | None => decode_loop encodings' raw_data []
      end
  end.

Definition ENCODINGS : list encoding := [Utf8; Utf8Sig; Latin1].

(** The part of [fetch_lines_from_url] after the body has been read:
    from [raw_data] to the decoded [text]. [RuntimeError] is the
    fetcher's failure. *)
Definition fetch_decode (raw_data : option (list byte)) : result str :=
  match raw_data with
  | None => Raise RuntimeError
  | Some raw_data =>
      let text := decode_loop ENCODINGS raw_data [] in
      if py_not text then Raise RuntimeError else Ok text
  end.

(** The decode step in the words of the specification: the text of the
    first encoding, in the given order, that decodes the bytes to a
    non-empty string. *)
Definition nonempty_decoding (enc : encoding) (raw_data : list byte)
    : option str :=
  match decode enc raw_data with
  | Some (c :: text) => Some (c :: text)
  | _ => None
  end.

Fixpoint first_nonempty_decoding (encodings : list encoding)
    (raw_data : list byte) : option str :=
  match encodings with
  | [] => None
  | enc :: encodings' =>
      match nonempty_decoding enc raw_data with
      | Some text => Some text
      | None => first_nonempty_decoding encodings' raw_data
      end
  end.

(** [enc] decodes [raw_data] to the non-empty string [text]. *)
Definition yields (enc : encoding) (raw_data : list byte) (text : str) : Prop :=
  decode enc raw_data = Some text ∧ text ≠ [].

(** ** Fetcher *)

(** The line boundaries of [str.splitlines]: line feed, vertical tab,
    form feed, carriage return, the separators U+001C to U+001E, next
    line U+0085, and the line and paragraph separators U+2028 and
    U+2029. *)
Definition is_line_boundary (c : N) : bool :=
  ((10 <=? c) && (c <=? 13)) || ((28 <=? c) && (c <=? 30))
  || (c =? 133) || (c =? 8232) || (c =? 8233).

(** The scan of [str.splitlines]: [line] is the line begun so far. A
    carriage return followed by a line feed is one boundary. A line is
    emitted at every boundary and, at the end of the text, when
    characters are left over. *)
Fixpoint splitlines_from (line : str) (text : str) : list str :=
  match text with
  | [] => match line with [] => [] | _ => [line] end
  | c :: text' =>
      if c =? 13 then
        match text' with
        | c' :: text'' =>
            if c' =? 10 then line :: splitlines_from [] text''
            else line :: splitlines_from [] text'
        | [] => [line]
        end
      else if is_line_boundary c then line :: splitlines_from [] text'
      else splitlines_from (line ++ [c]) text'
  end.

(** [text.splitlines()] *)
Definition splitlines (text : str) : list str := splitlines_from [] text.

(** A string without a line boundary. *)
Definition no_line_boundary (s : str) : bool :=
  forallb (fun c => negb (is_line_boundary c)) s.

(** What [urllib.request.urlopen] and [response.read()] do for a URL:
    one of the exceptions the code catches, or a response with its
    [status] attribute, if it has one, and the body read from it. An
    exception raised while reading is [OtherException].

    The constructor [urllib.request.Request(url=url, ...)] is called
    before the [try]: it returns, or raises [ValueError] (unknown url
    type, for a URL without a scheme; invalid host), which nothing
    catches. [request_ok] tells which. *)
Inductive http_outcome : Type :=
  | HTTPError
  | URLError
  | OtherException
  | Response (status : option Z) (raw_data : option (list byte)).

Definition fetch_lines_from_url (request_ok : str → bool)
    (urlopen : str → http_outcome) (url : pyobj) : result (list str) :=
  match url with
  | PyStr [] => Raise ValueError
  | PyStr url =>
      if negb (request_ok url) then Raise ValueError
      else
        match urlopen url with
        | HTTPError => Raise RuntimeError
        | URLError => Raise RuntimeError
        | OtherException => Raise RuntimeError
        | Response status raw_data =>
            let bad_status :=
              match status with
              | Some code => negb (code =? 200)%Z
              | None => false
              end in
            if bad_status then Raise RuntimeError
            else
              match fetch_decode raw_data with
              | Raise e => Raise e
              | Ok text => Ok (splitlines text)
              end
        end
  | _ => Raise ValueError
  end.

(** Code points that are Unicode scalar values. *)
Definition is_scalar_value (c : N) : bool :=
  (c <? 55296) || ((57344 <=? c) && (c <? 1114112)).

(** ** Output writer *)

(** The reading of the clock, [datetime.now(timezone.utc)]. *)
Record datetime : Type := {
  year : N; month : N; day : N; hour : N; minute : N; second : N
}.

Fixpoint uint_digits (d : Decimal.uint) : str :=
  match d with
  | Decimal.Nil => []
  | Decimal.D0 d => 48 :: uint_digits d
  | Decimal.D1 d => 49 :: uint_digits d
  | Decimal.D2 d => 50 :: uint_digits d
  | Decimal.D3 d => 51 :: uint_digits d
  | Decimal.D4 d => 52 :: uint_digits d
  | Decimal.D5 d => 53 :: uint_digits d
  | Decimal.D6 d => 54 :: uint_digits d
  | Decimal.D7 d => 55 :: uint_digits d
  | Decimal.D8 d => 56 :: uint_digits d
  | Decimal.D9 d => 57 :: uint_digits d
  end.

(** [str(n)] for a natural number, as in an f-string. *)
Definition str_of_N (n : N) : str := uint_digits (N.to_uint n).

(** A decimal number padded with zeros to [width] characters. *)
Definition zero_pad (width : nat) (n : N) : str :=
  let digits := str_of_N n in
  replicate (width - length digits) 48 ++ digits.

(** [strftime("%Y-%m-%dT%H:%M:%SZ")]. The year is written as the C
    library of Linux writes it, without padding; from the year 1000 on
    this is the four digits every platform gives. *)
Definition strftime_iso_z (t : datetime) : str :=
  str_of_N (year t) ++ lit "-" ++ zero_pad 2 (month t) ++ lit "-"
  ++ zero_pad 2 (day t) ++ lit "T" ++ zero_pad 2 (hour t) ++ lit ":"
  ++ zero_pad 2 (minute t) ++ lit ":" ++ zero_pad 2 (second t) ++ lit "Z".

Definition is_digit (c : N) : bool := (48 <=? c) && (c <=? 57).

(** The shape [YYYY-MM-DDTHH:MM:SSZ]. *)
Definition iso_z_shape (s : str) : bool :=
  match s with
  | [y1; y2; y3; y4; dash1; m1; m2; dash2; d1; d2; t;
     h1; h2; colon1; mi1; mi2; colon2; s1; s2; z] =>
      forallb is_digit [y1; y2; y3; y4; m1; m2; d1; d2; h1; h2; mi1; mi2; s1; s2]
      && (dash1 =? 45) && (dash2 =? 45) && (t =? 84)
      && (colon1 =? 58) && (colon2 =? 58) && (z =? 90)
  | _ => false
  end.

(** A date and time of the calendar, with a year of four digits. *)
Definition valid_datetime (t : datetime) : Prop :=
  1000 ≤ year t ≤ 9999 ∧ 1 ≤ month t ≤ 12 ∧ 1 ≤ day t ≤ 31
  ∧ hour t ≤ 23 ∧ minute t ≤ 59 ∧ second t ≤ 59.

(** [zero_pad width n] is exactly [width] decimal digits. *)
Definition pad_ok (width : nat) (n : N) : bool :=
  bool_decide (length (zero_pad width n) = width)
  && forallb is_digit (zero_pad width n).

(** What the device does with the content a file would have after a
    write, or has when it is closed: it stores it, or fails (the disk is
    full, say) and leaves [kept] in the file. *)
Inductive store_outcome : Type :=
  | Stored
  | NotStored (kept : str).

(** The files of the machine, as text, and what the system answers:
    - [writable]: the path may be opened for writing;
    - [open_error]: the exception, other than [OSError], that [open]
      raises for a path the platform cannot take (a path it cannot
      encode);
    - [device]: the outcome of a write, by path and resulting content;
    - [closing]: the outcome of the flush at close, by path and
      content. *)
Record filesystem : Type := {
  files : gmap str str;
  writable : str → bool;
  open_error : str → option exn;
  device : str → str → store_outcome;
  closing : str → str → store_outcome
}.

(** The file at [path] gets the content [content]. *)
Definition set_file (path content : str) (fs : filesystem) : filesystem :=
  {| files := <[ path := content ]> (files fs);
     writable := writable fs;
     open_error := open_error fs;
     device := device fs;
     closing := closing fs |}.

Definition content_of (path : str) (fs : filesystem) : str :=
  default [] (files fs !! path).

(** A path with a NUL character. *)
Definition has_nul (path : str) : bool := existsb (N.eqb 0) path.

(** Computations that act on the files and may raise. *)
Definition io (A : Type) : Type := filesystem → result A * filesystem.

Global Instance io_ret : MRet io := fun A (a : A) fs => (Ok a, fs).

Definition io_raise {A} (e : exn) : io A := fun fs => (Raise e, fs).

Global Instance io_bind : MBind io := fun A B (k : A → io B) (m : io A) fs =>
  match m fs with
  | (Ok a, fs') => k a fs'
  | (Raise e, fs') => (Raise e, fs')
  end.

(** [open(path, "w", encoding="utf-8")]: [ValueError] for a path with
    a NUL character, the exception of [open_error] if there is one,
    [OSError] if the path is not writable; otherwise the file is created
    or truncated. *)
Definition open_w (path : str) : io unit :=
  fun fs =>
    if has_nul path then (Raise ValueError, fs)
    else
      match open_error fs path with
      | Some e => (Raise e, fs)
      | None =>
          if writable fs path then (Ok (), set_file path [] fs)
          else (Raise OSError, fs)
      end.

(** [f.write(text)] on the file opened at [path]: the text is encoded
    to UTF-8 first, which raises [UnicodeEncodeError] for a surrogate
    and leaves the file as it is; then the device stores the new
    content or fails with [OSError]. *)
Definition write (path : str) (text : str) : io unit :=
  fun fs =>
    if forallb is_scalar_value text then
      let content := content_of path fs ++ text in
      match device fs path content with
      | Stored => (Ok (), set_file path content fs)
      | NotStored kept => (Raise OSError, set_file path kept fs)
      end
    else (Raise UnicodeEncodeError, fs).

(** [f.close()], with its flush. *)
Definition close (path : str) : io unit :=
  fun fs =>
    match closing fs path (content_of path fs) with
    | Stored => (Ok (), fs)
    | NotStored kept => (Raise OSError, set_file path kept fs)
    end.

(** [with open(path, "w", encoding="utf-8") as f: body]: the file is
    closed when the body ends, normally or not; an exception of the
    close replaces that of the body. *)
Definition with_open {A} (path : str) (body : io A) : io A :=
  fun fs =>
    match open_w path fs with
    | (Raise e, fs1) => (Raise e, fs1)
    | (Ok _, fs1) =>
        match body fs1 with
        | (r, fs2) =>
            match close path fs2 with
            | (Raise e, fs3) => (Raise e, fs3)
            | (Ok _, fs3) => (r, fs3)
            end
        end
    end.

(** [for x in xs: body(x)] *)
Fixpoint for_each {A} (xs : list A) (body : A → io unit) : io unit :=
  match xs with
  | [] => mret ()
  | x :: xs' => body x ;; for_each xs' body
  end.

(** [try: m  except OSError as e: raise RuntimeError(...) from e] *)
Definition except_OSError {A} (m : io A) : io A :=
  fun fs =>
    match m fs with
    | (Raise OSError, fs') => (Raise RuntimeError, fs')
    | r => r
    end.

(** [len(o)] *)
Definition py_len (o : pyobj) : result nat :=
  match o with
  | PyList items => Ok (length items)
  | PyStr s => Ok (length s)
  | _ => Raise TypeError
  end.

(** The items [for x in o] runs through. *)
Definition py_iter (o : pyobj) : result (list pyobj) :=
  match o with
  | PyList items => Ok items
  | PyStr s => Ok (List.map (fun c => PyStr [c]) s)
  | _ => Raise TypeError
  end.

(** [o + "\n"] *)
Definition add_newline (o : pyobj) : result str :=
  match o with
  | PyStr s => Ok (s ++ [10])
  | _ => Raise TypeError
  end.

Definition lift {A} (r : result A) : io A := fun fs => (r, fs).

Definition header_lines (updated_at : str) (total_rules : nat) : list str :=
  [ lit "# Updated time: " ++ updated_at;
    lit "# Total rules: " ++ str_of_N (N.of_nat total_rules);
    lit "# Thanks: adrules.top and whatshub.top";
    [] ].

Definition write_rules_to_file (now : datetime) (rules output_path : pyobj)
    : io unit :=
  match output_path with
  | PyStr [] => io_raise ValueError
  | PyStr output_path =>
      match rules with
      | PyNone => io_raise ValueError
      | _ =>
          let updated_at := strftime_iso_z now in
          total_rules ← lift (py_len rules);
          let header_lines := header_lines updated_at total_rules in
          except_OSError (
            with_open output_path (
              for_each header_lines (fun line => write output_path (line ++ [10]));;
              items ← lift (py_iter rules);
              for_each items (fun rule =>
                text ← lift (add_newline rule);
                write output_path text)))
      end
  | _ => io_raise ValueError
  end.

(** The file at [path] can be opened, and the device takes every write
    to it and its close. *)
Definition can_store (fs : filesystem) (path : str) : Prop :=
  has_nul path = false ∧ open_error fs path = None ∧ writable fs path = true
  ∧ (∀ content, device fs path content = Stored)
  ∧ (∀ content, closing fs path content = Stored).

(** A string the file object can encode to UTF-8. *)
Definition encodable (s : str) : bool := forallb is_scalar_value s.

(** The text the specification describes: the header block, then one
    rule per line. *)
Definition expected_file (now : datetime) (rules : list str) : str :=
  lit "# Updated time: " ++ strftime_iso_z now ++ [10]
  ++ lit "# Total rules: " ++ str_of_N (N.of_nat (length rules)) ++ [10]
  ++ lit "# Thanks: adrules.top and whatshub.top" ++ [10]
  ++ [10]
  ++ concat (List.map (fun rule => rule ++ [10]) rules).

(** A fragment of the Unicode lower-case mapping, character by
    character, for running the definitions on strings that are not
    ASCII: the Latin-1, Greek and Cyrillic capitals, the Kelvin sign and
    the dotted capital I. *)
Definition unicode_lower_char (c : N) : str :=
  if (65 <=? c) && (c <=? 90) then [c + 32]
  else if (192 <=? c) && (c <=? 222) && negb (c =? 215) then [c + 32]
  else if c =? 304 then [105; 775]
  else if (913 <=? c) && (c <=? 939) && negb (c =? 930) then [c + 32]
  else if (1024 <=? c) && (c <=? 1039) then [c + 80]
  else if (1040 <=? c) && (c <=? 1071) then [c + 32]
  else if c =? 8490 then [107]
  else [c].

Definition unicode_lower_fragment (s : str) : str :=
  concat (List.map unicode_lower_char s).

(** [fs'] is [fs] except, possibly, for the file at [path]. *)
Definition same_elsewhere (path : str) (fs fs' : filesystem) : Prop :=
  writable fs' = writable fs
  ∧ ∀ p, p ≠ path → files fs' !! p = files fs !! p.

(** The header of the output file, as lines. *)
Definition header_of (now : datetime) (total_rules : nat) : list str :=
  [ lit "# Updated time: " ++ strftime_iso_z now;
    lit "# Total rules: " ++ str_of_N (N.of_nat total_rules);
    lit "# Thanks: adrules.top and whatshub.top";
    [] ].

(** Inputs for running the definitions. *)
Definition scenario_sources : list pyobj :=
  [PyList [PyStr (lit "# comment"); PyStr (lit "ruleA"); PyStr [];
           PyStr (lit "ruleB")];
   PyList [PyStr (lit "ruleA"); PyStr (lit "; note"); PyStr (lit "ruleC")]].

Definition scenario_reordered : list pyobj :=
  [PyList [PyStr (lit "ruleC"); PyStr (lit "; note"); PyStr (lit "ruleA")];
   PyList [PyStr (lit "ruleB"); PyStr []; PyStr (lit "ruleA");
           PyStr (lit "# comment")]].

Definition mixed_sources : list pyobj :=
  [PyNone; PyList [PyStr (lit " ||ads.example^ "); PyInt 7; PyStr (lit "! title")];
   PyStr (lit "ruleZ"); PyInt 3].

Definition sample_time : datetime :=
  {| year := 2024; month := 3; day := 7; hour := 9; minute := 5; second := 0 |}.

Definition empty_disk : filesystem :=
  {| files := ∅; writable := fun _ => true; open_error := fun _ => None;
     device := fun _ _ => Stored; closing := fun _ _ => Stored |}.

(** A disk that takes the header and nothing more. *)
Definition full_disk : filesystem :=
  {| files := ∅; writable := fun _ => true; open_error := fun _ => None;
     device := fun _ content =>
       if decide (length content ≤ 94)%nat then Stored
       else NotStored (take 94 content);
     closing := fun _ _ => Stored |}.

(** A request is built for a URL with a scheme: some characters other
    than [/] and [:], then [:]. *)
Fixpoint has_scheme_from (seen : bool) (url : str) : bool :=
  match url with
  | [] => false
  | c :: url' =>
      if c =? 58 then seen
      else if c =? 47 then false
      else has_scheme_from true url'
  end.

Definition sample_request_ok (url : str) : bool := has_scheme_from false url.

(** A network for running the fetcher: the first list answers with
    status 200, the second with a response without status, and every
    other URL is refused. *)
Definition sample_urlopen (url : str) : http_outcome :=
  if decide (url = lit "https://adrules.top/adrules-surge.conf") then
    Response (Some 200%Z)
      (Some (list_byte_of_string "! Title" ++ [x0a]
             ++ list_byte_of_string "||a.example^" ++ [x0d; x0a; x0d; x0a]
             ++ list_byte_of_string "||b.example^"))
  else if decide (url = lit "https://whatshub.top/rule/AntiAD.list") then
    Response None
      (Some (list_byte_of_string "||b.example^" ++ [x0a]
             ++ list_byte_of_string "# c" ++ [x0a]
             ++ list_byte_of_string " ||c.example^ " ++ [x0a]))
  else HTTPError.

(** The same network with the second list down. *)
Definition sample_urlopen_second_down (url : str) : http_outcome :=
  if decide (url = lit "https://adrules.top/adrules-surge.conf")
  then sample_urlopen url
  else URLError.

(** The rules of [scenario_sources], written differently. *)
Definition scenario_padded : list pyobj :=
  [PyList [PyStr (lit "ruleC"); PyStr (lit "  ruleB"); PyStr (lit "ruleA  ");
           PyStr (lit "ruleB"); PyStr (lit "! remark")]].

Definition read_only_disk : filesystem :=
  {| files := ∅; writable := fun _ => false; open_error := fun _ => None;
     device := fun _ _ => Stored; closing := fun _ _ => Stored |}.

Section Pipeline.

(** [str.lower] follows CPython: a string of ASCII characters only is
    lowered character by character; any other string goes through the
    Unicode case tables, which are not part of the script and are
    taken as a parameter. *)
Variable unicode_lower : str → str.

Definition lower (s : str) : str :=
  if forallb is_ascii s then List.map ascii_lower s else unicode_lower s.

(** ** Line classifier and normalizer *)

Definition is_comment_or_empty (line : option str) : bool :=
  match line with
  | None => true
  | Some line =>
      let stripped := strip line in
      if py_not stripped then true
      else if startswith stripped (lit "#") || startswith stripped (lit ";")
              || startswith stripped (lit "!") then true
      else
        let lower := lower stripped in
        if startswith lower (lit "[adblock") || startswith lower (lit "[version")
           || startswith lower (lit "[filter") then true
        else false
  end.

Definition normalize_rule_line (line : option str) : str :=
  match line with
  | None => []
  | Some line => strip line
  end.

(** ** Merge and deduplicate *)

(** The loop state: the set [unique_rules] and the list [rules]. *)
Definition merge_state : Type := gset str * list str.

(** Body of the inner loop, for one [raw_line]. *)
Definition merge_line (st : merge_state) (raw_line : pyobj) : merge_state :=
  match raw_line with
  | PyStr raw_line =>
      if is_comment_or_empty (Some raw_line) then st
      else
        let rule := normalize_rule_line (Some raw_line) in
        if py_not rule then st
        else if decide (rule ∈ st.1) then st
        else ({[ rule ]} ∪ st.1, st.2 ++ [rule])
  | _ => st
  end.

(** Body of the outer loop, for one [source_lines]. *)
Definition merge_source (st : merge_state) (source_lines : pyobj) : merge_state :=
  match source_lines with
  | PyList source_lines => foldl merge_line st source_lines
  | _ => st
  end.

Definition merge_and_deduplicate_rules (multi_source_lines : pyobj)
  : result (list str) :=
  match multi_source_lines with
  | PyList [] => Raise ValueError
  | PyList sources =>
      let st := foldl merge_source (∅, []) sources in
      Ok (list_sort st.2)
  | _ => Raise ValueError
  end.

(** The rules a source contributes: the trimmed forms of the string
    lines the classifier retains. *)
Definition retained_rule (source_lines : list pyobj) (r : str) : Prop :=
  ∃ line, PyStr line ∈ source_lines
          ∧ is_comment_or_empty (Some line) = false ∧ r = strip line.

Definition rule_of (sources : list pyobj) (r : str) : Prop :=
  ∃ source_lines, PyList source_lines ∈ sources
                  ∧ retained_rule source_lines r.

(** Invariant of the loop state: [rules] has no duplicates and holds
    the members of [unique_rules]. *)
Definition merge_inv (st : merge_state) : Prop :=
  NoDup st.2 ∧ ∀ r, r ∈ st.1 ↔ r ∈ st.2.

(** A source and a reordering of its lines; anything that is not a
    list is left as it is. *)
Inductive same_lines : pyobj → pyobj → Prop :=
  | same_lines_list a b : a ≡ₚ b → same_lines (PyList a) (PyList b)
  | same_lines_other o : is_list o = false → same_lines o o.

(** [ys] is [xs] with the lines of each source permuted and the
    sources permuted. *)
Definition reordered (xs ys : list pyobj) : Prop :=
  ∃ zs, Forall2 same_lines xs zs ∧ zs ≡ₚ ys.

(** ** Entry point *)

Definition RULE_URLS : list str :=
  [ lit "https://adrules.top/adrules-surge.conf";
    lit "https://whatshub.top/rule/AntiAD.list" ].

Definition OUTPUT_FILE : str := lit "FuckAD.conf".

(** The message [main] prints before [sys.exit(1)], by the stage that
    failed; the text of the exception is not modelled. *)
Inductive diagnostic : Type :=
  | FetchFailed (url : str)
  | MergeFailed
  | WriteFailed.

(** How the process ends: [main] returns, or prints a message and
    exits with status 1. *)
Inductive outcome : Type :=
  | Done
  | Exit1 (message : diagnostic).

Definition exit_status (o : outcome) : Z :=
  match o with Done => 0 | Exit1 _ => 1 end.

(** The first loop of [main]: [all_source_lines] grows by the lines of
    each URL; the first fetch that raises ends the run. *)
Fixpoint fetch_sources (request_ok : str → bool)
    (urlopen : str → http_outcome) (urls : list str)
    (all_source_lines : list pyobj) : diagnostic + list pyobj :=
  match urls with
  | [] => inr all_source_lines
  | url :: urls' =>
      match fetch_lines_from_url request_ok urlopen (PyStr url) with
      | Raise _ => inl (FetchFailed url)
      | Ok lines =>
          fetch_sources request_ok urlopen urls'
            (all_source_lines ++ [PyList (PyStr <$> lines)])
      end
  end.

Definition main (request_ok : str → bool) (urlopen : str → http_outcome)
    (now : datetime) (fs : filesystem) : outcome * filesystem :=
  match fetch_sources request_ok urlopen RULE_URLS [] with
  | inl message => (Exit1 message, fs)
  | inr all_source_lines =>
      match merge_and_deduplicate_rules (PyList all_source_lines) with
      | Raise _ => (Exit1 MergeFailed, fs)
      | Ok merged_rules =>
          match write_rules_to_file now (PyList (PyStr <$> merged_rules))
                  (PyStr OUTPUT_FILE) fs with
          | (Raise _, fs') => (Exit1 WriteFailed, fs')
          | (Ok _, fs') => (Done, fs')
          end
      end
  end.

(** * Properties *)

(** ** Trimming *)

Lemma lstrip_nil_iff (s : str) : lstrip s = [] ↔ forallb isspace s = true.
Proof.
induction s as [|c s IH]; simpl; [done|].
destruct (isspace c); simpl; [done|]. split; discriminate.
Qed.

Lemma lstrip_head (s : str) c t : lstrip s = c :: t → isspace c = false.
Proof.
induction s as [|d s IH]; simpl; [done|].
destruct (isspace d) eqn:Hd; [done|]. by intros [= <- _].
Qed.

Lemma lstrip_nonspace c (t : str) : isspace c = false → lstrip (c :: t) = c :: t.
Proof. simpl. by intros ->. Qed.

Lemma lstrip_idem (s : str) : lstrip (lstrip s) = lstrip s.
Proof.
destruct (lstrip s) as [|c t] eqn:E; [done|].
apply lstrip_nonspace. by eapply lstrip_head.
Qed.

Lemma lstrip_app_nonspace (u : str) c v :
isspace c = false → lstrip (u ++ c :: v) = lstrip u ++ c :: v.
Proof.
intros Hc. induction u as [|d u IH]; simpl.
- by rewrite Hc.
- by destruct (isspace d).
Qed.

Lemma rstrip_nil : rstrip [] = [].
Proof. done. Qed.

Lemma rstrip_cons_nonspace c (t : str) :
isspace c = false → rstrip (c :: t) = c :: rstrip t.
Proof.
intros Hc. unfold rstrip. rewrite reverse_cons.
rewrite (lstrip_app_nonspace _ c []) by done.
by rewrite reverse_snoc.
Qed.

Lemma rstrip_idem (s : str) : rstrip (rstrip s) = rstrip s.
Proof. unfold rstrip. by rewrite reverse_involutive, lstrip_idem. Qed.

Lemma forallb_isspace_reverse (s : str) :
forallb isspace (reverse s) = forallb isspace s.
Proof.
induction s as [|c s IH]; [done|].
rewrite reverse_cons, forallb_app, IH. simpl.
rewrite andb_true_r. apply andb_comm.
Qed.

Lemma rstrip_nil_iff (s : str) : rstrip s = [] ↔ forallb isspace s = true.
Proof.
unfold rstrip. rewrite <- forallb_isspace_reverse, <- lstrip_nil_iff.
split; intros H.
- apply (f_equal reverse) in H. by rewrite reverse_involutive in H.
- by rewrite H.
Qed.

(** A trimmed string is empty or starts with a character that is not
  white space. *)
Lemma strip_cases (s : str) :
strip s = [] ∨
∃ c t, lstrip s = c :: t ∧ isspace c = false ∧ strip s = c :: rstrip t.
Proof.
unfold strip. destruct (lstrip s) as [|c t] eqn:E; [by left|].
right. exists c, t. pose proof (lstrip_head _ _ _ E) as Hc.
by rewrite rstrip_cons_nonspace.
Qed.

Lemma strip_nil_iff (s : str) : strip s = [] ↔ forallb isspace s = true.
Proof.
rewrite <- lstrip_nil_iff.
destruct (strip_cases s) as [E|(c & t & El & Hc & E)].
- split; [|done]. intros _. unfold strip in E.
  apply rstrip_nil_iff, lstrip_nil_iff in E. by rewrite lstrip_idem in E.
- rewrite E, El. split; discriminate.
Qed.

Lemma strip_idem (s : str) : strip (strip s) = strip s.
Proof.
destruct (strip_cases s) as [E|(c & t & El & Hc & E)].
- by rewrite E.
- rewrite E. unfold strip at 1. rewrite lstrip_nonspace by done.
  by rewrite rstrip_cons_nonspace, rstrip_idem.
Qed.

Lemma py_not_true (s : str) : py_not s = true ↔ s = [].
Proof. by destruct s. Qed.

Lemma py_not_false (s : str) : py_not s = false ↔ s ≠ [].
Proof. by destruct s. Qed.

Lemma startswith_spec (s prefix : str) :
startswith s prefix = true ↔ ∃ rest, s = prefix ++ rest.
Proof.
revert s. induction prefix as [|p prefix IH]; intros s; simpl.
- split; [intros _; by exists s|by intros _].
- destruct s as [|c s].
  + split; [done|]. by intros [rest ?].
  + rewrite andb_true_iff, N.eqb_eq, IH. split.
    * intros [-> [rest ->]]. eauto.
    * intros [rest [= -> ->]]. eauto.
Qed.

(** ** The order on strings *)

Global Instance str_le_refl : Reflexive str_le.
Proof.
intros a. unfold str_le. induction a as [|x a IH]; simpl; [done|].
by rewrite N.ltb_irrefl, N.eqb_refl.
Qed.

Global Instance str_le_trans : Transitive str_le.
Proof.
unfold str_le. intros a. induction a as [|x a IH]; intros b c; [done|].
destruct b as [|y b]; [done|]. destruct c as [|z c]; [done|]. simpl.
destruct (N.ltb_spec x y), (N.ltb_spec y z), (N.ltb_spec x z),
  (N.eqb_spec x y), (N.eqb_spec y z), (N.eqb_spec x z);
  intros Hab Hbc; try done; try (exfalso; lia).
by apply (IH b c).
Qed.

Global Instance str_le_antisym : AntiSymm (=) str_le.
Proof.
unfold str_le. intros a. induction a as [|x a IH]; intros b.
- by destruct b.
- destruct b as [|y b]; [done|]. simpl.
  destruct (N.ltb_spec x y), (N.ltb_spec y x),
    (N.eqb_spec x y), (N.eqb_spec y x);
    intros Hab Hba; try done; try (exfalso; lia).
  subst y. f_equal. by apply IH.
Qed.

Global Instance str_le_total : Total str_le.
Proof.
unfold str_le. intros a. induction a as [|x a IH]; intros b; [by left|].
destruct b as [|y b]; [by right|]. simpl.
destruct (N.ltb_spec x y), (N.ltb_spec y x),
  (N.eqb_spec x y), (N.eqb_spec y x); auto; try (exfalso; lia).
Qed.

(** Two sorted lists without duplicates that hold the same strings are
  the same list. *)
Lemma sorted_nodup_unique (l1 l2 : list str) :
Sorted str_le l1 → Sorted str_le l2 → NoDup l1 → NoDup l2 →
(∀ r, r ∈ l1 ↔ r ∈ l2) → l1 = l2.
Proof.
intros S1 S2 N1 N2 H. apply (Sorted_unique str_le); [done..|].
by apply NoDup_Permutation.
Qed.

Lemma list_sort_sorted (l : list str) : Sorted str_le (list_sort l).
Proof. apply (Sorted_merge_sort str_le). Qed.

Lemma list_sort_perm (l : list str) : list_sort l ≡ₚ l.
Proof. apply (merge_sort_Permutation str_le). Qed.

Lemma list_sort_id (l : list str) : Sorted str_le l → list_sort l = l.
Proof.
intros Hl. apply (Sorted_unique str_le); [apply list_sort_sorted|done|].
apply list_sort_perm.
Qed.


(** ** The classifier *)

(** The classifier looks at the trimmed line only. *)
Lemma is_comment_or_empty_strip (line : str) :
  is_comment_or_empty (Some (strip line)) = is_comment_or_empty (Some line).
Proof. unfold is_comment_or_empty. by rewrite strip_idem. Qed.

Lemma retained_nonempty (line : str) :
  is_comment_or_empty (Some line) = false → strip line ≠ [].
Proof.
  unfold is_comment_or_empty. intros H E. by rewrite E in H.
Qed.

(** C5. The classifier discards exactly: the absent line; the line
    that is empty or holds white space only; the line whose trimmed
    form starts with one of the markers [#], [;], [!]; the line whose
    trimmed form, in lower case, starts with one of [[adblock],
    [[version], [[filter]. Every other line is retained. *)
Theorem is_comment_or_empty_discards_exactly (line : option str) :
  is_comment_or_empty line = true ↔
    line = None
    ∨ ∃ l, line = Some l ∧
        ( forallb isspace l = true
          ∨ (∃ marker rest, marker ∈ [lit "#"; lit ";"; lit "!"]
                            ∧ strip l = marker ++ rest)
          ∨ (∃ header rest,
                header ∈ [lit "[adblock"; lit "[version"; lit "[filter"]
                ∧ lower (strip l) = header ++ rest) ).
Proof.
  destruct line as [l|]; [|by split; auto].
  unfold is_comment_or_empty. cbv zeta.
  destruct (py_not (strip l)) eqn:Hempty.
  { apply py_not_true, strip_nil_iff in Hempty. split; [|intros _; reflexivity].
    intros _. right. exists l. auto. }
  assert (Hns : forallb isspace l ≠ true).
  { rewrite <- strip_nil_iff. by apply py_not_false. }
  destruct (startswith (strip l) (lit "#") || startswith (strip l) (lit ";")
            || startswith (strip l) (lit "!")) eqn:Hc.
  { split; [|intros _; reflexivity]. intros _. right. exists l.
    split; [reflexivity|]. right. left.
    rewrite !orb_true_iff, !startswith_spec in Hc.
    destruct Hc as [[[r ->]|[r ->]]|[r ->]]; eexists _, r;
      (split; [|reflexivity]); set_solver. }
  rewrite !orb_false_iff, <- !not_true_iff_false, !startswith_spec in Hc.
  destruct Hc as [[Hc1 Hc2] Hc3].
  destruct (startswith (lower (strip l)) (lit "[adblock")
            || startswith (lower (strip l)) (lit "[version")
            || startswith (lower (strip l)) (lit "[filter")) eqn:Hh.
  { split; [|intros _; reflexivity]. intros _. right. exists l.
    split; [reflexivity|]. right. right.
    rewrite !orb_true_iff, !startswith_spec in Hh.
    destruct Hh as [[[r Hr]|[r Hr]]|[r Hr]]; eexists _, r;
      (split; [|exact Hr]); set_solver. }
  rewrite !orb_false_iff, <- !not_true_iff_false, !startswith_spec in Hh.
  destruct Hh as [[Hh1 Hh2] Hh3].
  split; [done|]. intros [?|(l' & [= <-] & [?|[(m & r & Hm & E)|(h & r & Hh & E)]])];
    [done|done| |].
  - exfalso. rewrite !elem_of_cons, elem_of_nil in Hm.
    destruct Hm as [-> |[-> |[-> |[]]]]; eauto.
  - exfalso. rewrite !elem_of_cons, elem_of_nil in Hh.
    destruct Hh as [-> |[-> |[-> |[]]]]; eauto.
Qed.

(** C9. A line the classifier retains normalizes to a non-empty
    string, so the test [if not rule] of the merge loop never fires
    after the classifier: the loop body adds the trimmed line unless
    it has been seen. *)
Theorem retained_line_normalizes_nonempty (line : str) :
  is_comment_or_empty (Some line) = false →
  normalize_rule_line (Some line) ≠ []
  ∧ py_not (normalize_rule_line (Some line)) = false
  ∧ ∀ st : merge_state,
      merge_line st (PyStr line) =
        if decide (strip line ∈ st.1) then st
        else ({[ strip line ]} ∪ st.1, st.2 ++ [strip line]).
Proof.
  intros H. pose proof (retained_nonempty _ H) as Hne.
  split; [done|]. split; [by apply py_not_false|].
  intros st. unfold merge_line. rewrite H. simpl.
  by apply py_not_false in Hne as ->.
Qed.

(** ** The merge loop *)

Lemma merge_inv_init : merge_inv (∅, []).
Proof. split; [constructor|]. intros r. set_solver. Qed.

Lemma merge_line_spec (st : merge_state) (o : pyobj) :
  merge_inv st →
  merge_inv (merge_line st o)
  ∧ ∀ r, r ∈ (merge_line st o).2 ↔
         r ∈ st.2 ∨ ∃ line, o = PyStr line
                      ∧ is_comment_or_empty (Some line) = false
                      ∧ r = strip line.
Proof.
  intros [Hnd Hset].
  assert (Hskip : (∀ line, o = PyStr line →
                     is_comment_or_empty (Some line) = true) →
            merge_inv st ∧ ∀ r, r ∈ st.2 ↔
              r ∈ st.2 ∨ ∃ line, o = PyStr line
                      ∧ is_comment_or_empty (Some line) = false
                      ∧ r = strip line).
  { intros Hno. split; [done|]. intros r. split; [auto|].
    intros [?|(line & -> & Hr & _)]; [done|].
    rewrite (Hno line) in Hr; done. }
  destruct o as [|z|line|items]; try (apply Hskip; by intros).
  unfold merge_line.
  destruct (is_comment_or_empty (Some line)) eqn:Hc.
  { apply Hskip. by intros ? [= <-]. }
  pose proof (retained_nonempty _ Hc) as Hne. simpl.
  apply py_not_false in Hne as ->.
  destruct (decide (strip line ∈ st.1)) as [Hin|Hin].
  - split; [done|]. intros r. split; [auto|].
    intros [?|(line' & [= <-] & _ & ->)]; [done|]. by apply Hset.
  - split; [split|]; simpl.
    + apply NoDup_app. split; [done|]. split; [|apply NoDup_singleton].
      intros r Hr ->%list_elem_of_singleton. by apply Hin, Hset.
    + intros r. rewrite elem_of_union, elem_of_singleton, elem_of_app,
        list_elem_of_singleton, Hset. tauto.
    + intros r. rewrite elem_of_app, list_elem_of_singleton. split.
      * intros [?| ->]; [auto|]. right. by exists line.
      * intros [?|(line' & [= <-] & _ & ->)]; auto.
Qed.

Lemma merge_lines_spec (lines : list pyobj) (st : merge_state) :
  merge_inv st →
  merge_inv (foldl merge_line st lines)
  ∧ ∀ r, r ∈ (foldl merge_line st lines).2 ↔
         r ∈ st.2 ∨ retained_rule lines r.
Proof.
  revert st. induction lines as [|o lines IH]; intros st Hst; simpl.
  - split; [done|]. intros r. split; [auto|].
    intros [?|(line & Hin & _)]; [done|]. by apply elem_of_nil in Hin.
  - destruct (merge_line_spec st o Hst) as [Hst' Hone].
    destruct (IH _ Hst') as [Hinv Hall]. split; [done|].
    intros r. rewrite Hall, Hone. unfold retained_rule. split.
    + intros [[?|(line & Ho & Hr & Hl)]|(line & Hin & Hr & Hl)]; [auto|..];
        right; exists line; rewrite elem_of_cons; auto.
    + intros [?|(line & [Ho|Hin]%elem_of_cons & Hr & Hl)]; [auto|..].
      * left. right. by exists line.
      * right. by exists line.
Qed.

Lemma merge_source_spec (st : merge_state) (o : pyobj) :
  merge_inv st →
  merge_inv (merge_source st o)
  ∧ ∀ r, r ∈ (merge_source st o).2 ↔
         r ∈ st.2 ∨ ∃ source_lines, o = PyList source_lines
                      ∧ retained_rule source_lines r.
Proof.
  intros Hst. destruct o as [|z|line|items]; simpl;
    try (split; [done|]; intros r; split; [auto|];
         by intros [?|(? & [=] & _)]).
  destruct (merge_lines_spec items st Hst) as [Hinv Hall].
  split; [done|]. intros r. rewrite Hall. split.
  - intros [?|?]; [auto|]. right. by exists items.
  - intros [?|(? & [= <-] & ?)]; auto.
Qed.

Lemma merge_sources_spec (sources : list pyobj) (st : merge_state) :
  merge_inv st →
  merge_inv (foldl merge_source st sources)
  ∧ ∀ r, r ∈ (foldl merge_source st sources).2 ↔
         r ∈ st.2 ∨ rule_of sources r.
Proof.
  revert st. induction sources as [|o sources IH]; intros st Hst; simpl.
  - split; [done|]. intros r. split; [auto|].
    intros [?|(src & Hin & _)]; [done|]. by apply elem_of_nil in Hin.
  - destruct (merge_source_spec st o Hst) as [Hst' Hone].
    destruct (IH _ Hst') as [Hinv Hall]. split; [done|].
    intros r. rewrite Hall, Hone. unfold rule_of. split.
    + intros [[?|(src & Ho & Hr)]|(src & Hin & Hr)]; [auto|..];
        right; exists src; rewrite elem_of_cons; auto.
    + intros [?|(src & [Ho|Hin]%elem_of_cons & Hr)]; [auto|..].
      * left. right. by exists src.
      * right. by exists src.
Qed.

(** What a call on a non-empty list returns. *)
Lemma merge_nonempty (sources : list pyobj) :
  sources ≠ [] →
  merge_and_deduplicate_rules (PyList sources)
  = Ok (list_sort (foldl merge_source (∅, []) sources).2).
Proof. by destruct sources. Qed.

(** The result is the sorted, duplicate-free list of the rules of the
    sources. *)
Lemma merge_characterized (sources : list pyobj) (rules : list str) :
  merge_and_deduplicate_rules (PyList sources) = Ok rules →
  Sorted str_le rules ∧ NoDup rules ∧ ∀ r, r ∈ rules ↔ rule_of sources r.
Proof.
  destruct sources as [|o sources]; [done|].
  rewrite merge_nonempty by done. intros [= <-].
  destruct (merge_sources_spec (o :: sources) _ merge_inv_init) as [[Hnd _] Hall].
  split; [apply list_sort_sorted|]. split.
  - by rewrite list_sort_perm.
  - intros r. rewrite list_sort_perm, Hall. split; [|auto].
    intros [Hin|?]; [|done]. by apply elem_of_nil in Hin.
Qed.

(** Two calls that see the same rules return the same list. *)
Lemma merge_same_rules (xs ys : list pyobj) (rx ry : list str) :
  merge_and_deduplicate_rules (PyList xs) = Ok rx →
  merge_and_deduplicate_rules (PyList ys) = Ok ry →
  (∀ r, rule_of xs r ↔ rule_of ys r) →
  rx = ry.
Proof.
  intros (Sx & Nx & Ex)%merge_characterized (Sy & Ny & Ey)%merge_characterized H.
  apply sorted_nodup_unique; try done. intros r. by rewrite Ex, Ey.
Qed.

Lemma rule_of_cons (o : pyobj) (sources : list pyobj) (r : str) :
  rule_of (o :: sources) r ↔
    (∃ source_lines, o = PyList source_lines ∧ retained_rule source_lines r)
    ∨ rule_of sources r.
Proof.
  unfold rule_of. split.
  - intros (src & [Ho|Hin]%elem_of_cons & Hr).
    + left. by exists src.
    + right. by exists src.
  - intros [(src & Ho & Hr)|(src & Hin & Hr)];
      exists src; rewrite elem_of_cons; auto.
Qed.

Lemma retained_rule_perm (a b : list pyobj) (r : str) :
  a ≡ₚ b → retained_rule a r ↔ retained_rule b r.
Proof.
  intros Hab. unfold retained_rule.
  split; intros (line & Hin & Hr); exists line; split; try done.
  - by rewrite <- Hab.
  - by rewrite Hab.
Qed.

Lemma rule_of_same_lines (xs zs : list pyobj) (r : str) :
  Forall2 same_lines xs zs → rule_of xs r ↔ rule_of zs r.
Proof.
  induction 1 as [|x z xs zs Hxz _ IH]; [done|].
  rewrite !rule_of_cons, IH.
  destruct Hxz as [a b Hab|o Ho]; [|done].
  split; (intros [(src & [= <-] & Hr)|?]; [left|by right]).
  - exists b. split; [done|]. by apply (retained_rule_perm a b).
  - exists a. split; [done|]. by apply (retained_rule_perm a b).
Qed.

Lemma rule_of_perm (zs ys : list pyobj) (r : str) :
  zs ≡ₚ ys → rule_of zs r ↔ rule_of ys r.
Proof.
  intros H. unfold rule_of.
  split; intros (src & Hin & Hr); exists src; split; try done.
  - by rewrite <- H.
  - by rewrite H.
Qed.

Lemma rule_of_reordered (xs ys : list pyobj) (r : str) :
  reordered xs ys → rule_of xs r ↔ rule_of ys r.
Proof.
  intros (zs & Hxz & Hzy).
  by rewrite (rule_of_same_lines xs zs), (rule_of_perm zs ys).
Qed.

Lemma reordered_nil_iff (xs ys : list pyobj) :
  reordered xs ys → xs = [] ↔ ys = [].
Proof.
  intros (zs & Hxz & Hzy).
  apply Forall2_length in Hxz. apply Permutation_length in Hzy.
  rewrite <- !length_zero_iff_nil. lia.
Qed.

(** A rule of the sources is trimmed already, and the classifier
    retains it. *)
Lemma rule_of_clean (sources : list pyobj) (r : str) :
  rule_of sources r →
  r ≠ [] ∧ strip r = r ∧ is_comment_or_empty (Some r) = false.
Proof.
  intros (src & _ & line & _ & Hr & ->).
  split; [by apply retained_nonempty|].
  split; [apply strip_idem|]. by rewrite is_comment_or_empty_strip.
Qed.

Lemma merge_source_filter (sources : list pyobj) (st : merge_state) :
  foldl merge_source st (List.filter is_list sources)
  = foldl merge_source st sources.
Proof.
  revert st. induction sources as [|o sources IH]; intros st; [done|].
  destruct o; simpl; by rewrite IH.
Qed.

(** ** The merge stage *)


(** C2. The merge stage raises [ValueError] exactly when its argument
    is not a list or is the empty list; it raises nothing else, and on
    a non-empty list it returns. *)
Theorem merge_raises_iff_not_list_or_empty (x : pyobj) :
  (merge_and_deduplicate_rules x = Raise ValueError
     ↔ is_list x = false ∨ x = PyList [])
  ∧ (∀ e, merge_and_deduplicate_rules x = Raise e → e = ValueError)
  ∧ merge_and_deduplicate_rules (PyList []) = Raise ValueError
  ∧ (∀ sources, x = PyList sources → sources ≠ [] →
       ∃ rules, merge_and_deduplicate_rules x = Ok rules).
Proof.
  split; [|split; [|split]].
  - destruct x as [|z|s|[|o items]]; simpl; split; auto; try done.
    intros [?|?]; done.
  - intros e. destruct x as [|z|s|[|o items]]; simpl; by intros [= <-].
  - done.
  - intros sources -> Hne. eexists. by apply merge_nonempty.
Qed.

(** C3. Merging is idempotent: the output of a run, passed again as
    the only source, comes back unchanged. *)
Theorem merge_idempotent (sources : list pyobj) :
  sources ≠ [] →
  ∃ rules,
    merge_and_deduplicate_rules (PyList sources) = Ok rules
    ∧ merge_and_deduplicate_rules (PyList [PyList (PyStr <$> rules)])
      = Ok rules.
Proof.
  intros Hne. eexists. split; [by apply merge_nonempty|].
  set (rules := list_sort _).
  assert (H1 : merge_and_deduplicate_rules (PyList sources) = Ok rules)
    by by apply merge_nonempty.
  rewrite merge_nonempty by done. f_equal.
  apply (merge_same_rules [PyList (PyStr <$> rules)] sources); try done.
  destruct (merge_characterized _ _ H1) as (_ & _ & Hel).
  intros r. rewrite rule_of_cons. split.
  - intros [(src & [= <-] & line & Hin & Hr & ->)|(? & []%elem_of_nil & _)].
    apply list_elem_of_fmap in Hin as (line' & [= <-] & Hin).
    apply Hel in Hin. destruct (rule_of_clean _ _ Hin) as (_ & -> & _). done.
  - intros Hr. left. eexists. split; [done|].
    destruct (rule_of_clean _ _ Hr) as (_ & Hs & Hc).
    exists r. split; [|done]. apply list_elem_of_fmap. exists r.
    split; [done|]. by apply Hel.
Qed.

(** C4. The output does not depend on the order of the sources or on
    the order of the lines inside a source. *)
Theorem merge_order_independent (xs ys : list pyobj) :
  reordered xs ys →
  merge_and_deduplicate_rules (PyList xs)
  = merge_and_deduplicate_rules (PyList ys).
Proof.
  intros H. pose proof (reordered_nil_iff _ _ H) as Hnil.
  destruct xs as [|x xs].
  { by rewrite (proj1 Hnil). }
  assert (Hy : ys ≠ []) by (intros E; by apply Hnil in E).
  rewrite !merge_nonempty by done. f_equal.
  apply (merge_same_rules (x :: xs) ys); try by rewrite merge_nonempty.
  intros r. by apply rule_of_reordered.
Qed.

(** C6. The scenario of the specification: two sources with comments,
    a blank line and a repeated rule. *)
Theorem merge_concrete_scenario :
  merge_and_deduplicate_rules
    (PyList [PyList [PyStr (lit "# comment"); PyStr (lit "ruleA");
                     PyStr []; PyStr (lit "ruleB")];
             PyList [PyStr (lit "ruleA"); PyStr (lit "; note");
                     PyStr (lit "ruleC")]])
  = Ok [lit "ruleA"; lit "ruleB"; lit "ruleC"].
Proof. vm_compute. reflexivity. Qed.

(** C10. An element of the outer list that is not a list is skipped:
    a call on a non-empty list returns, and returns what the call on
    the list sources alone returns; when no element is a list, it
    returns the empty list. *)
Theorem merge_skips_non_list_sources (sources : list pyobj) :
  sources ≠ [] →
  (∃ rules, merge_and_deduplicate_rules (PyList sources) = Ok rules)
  ∧ (List.filter is_list sources ≠ [] →
       merge_and_deduplicate_rules (PyList sources)
       = merge_and_deduplicate_rules (PyList (List.filter is_list sources)))
  ∧ (List.filter is_list sources = [] →
       merge_and_deduplicate_rules (PyList sources) = Ok []).
Proof.
  intros Hne. rewrite merge_nonempty by done. split; [by eexists|]. split.
  - intros Hf. rewrite merge_nonempty by done.
    by rewrite merge_source_filter.
  - intros Hf. by rewrite <- merge_source_filter, Hf.
Qed.

(** ** Decoding *)

Lemma nonempty_decoding_spec (enc : encoding) (raw : list byte) (text : str) :
  nonempty_decoding enc raw = Some text ↔ yields enc raw text.
Proof.
  unfold nonempty_decoding, yields.
  destruct (decode enc raw) as [[|c t]|]; split; try done.
  - by intros [[= <-] ?].
  - by intros [= <-].
  - by intros [[= <-] _].
  - by intros [? _].
Qed.

Lemma nonempty_decoding_none (enc : encoding) (raw : list byte) :
  nonempty_decoding enc raw = None ↔ ¬ ∃ text, yields enc raw text.
Proof.
  split.
  - intros H [text Ht%nonempty_decoding_spec]. congruence.
  - intros H. destruct (nonempty_decoding enc raw) as [text|] eqn:E; [|done].
    destruct H. exists text. by apply nonempty_decoding_spec.
Qed.

(** The loop returns the first non-empty decoding, or the empty
    string. *)
Lemma decode_loop_first (encodings : list encoding) (raw : list byte) :
  decode_loop encodings raw []
  = default [] (first_nonempty_decoding encodings raw).
Proof.
  induction encodings as [|enc encodings IH]; simpl; [done|].
  unfold nonempty_decoding. by destruct (decode enc raw) as [[|c t]|].
Qed.

Lemma first_nonempty_decoding_some (encodings : list encoding)
    (raw : list byte) (text : str) :
  first_nonempty_decoding encodings raw = Some text ↔
    ∃ before enc after,
      encodings = before ++ enc :: after
      ∧ yields enc raw text
      ∧ ∀ e, e ∈ before → ¬ ∃ t, yields e raw t.
Proof.
  induction encodings as [|enc0 encodings IH]; simpl.
  { split; [done|]. intros (before & ? & ? & E & _). by destruct before. }
  destruct (nonempty_decoding enc0 raw) as [t0|] eqn:E0.
  - apply nonempty_decoding_spec in E0. split.
    + intros [= <-]. exists [], enc0, encodings. split; [done|].
      split; [done|]. by intros e ?%elem_of_nil.
    + intros ([|e0 before] & enc & after & E & [Hy Hne] & Hb).
      * injection E as <- _. destruct E0 as [E0 _]. congruence.
      * injection E as <- _. destruct (Hb enc0); [left|by exists t0].
  - apply nonempty_decoding_none in E0. rewrite IH. split.
    + intros (before & enc & after & -> & Hy & Hb).
      exists (enc0 :: before), enc, after. split; [done|]. split; [done|].
      intros e [-> |?]%elem_of_cons; auto.
    + intros ([|e0 before] & enc & after & E & Hy & Hb).
      * injection E as <- _. destruct E0. by exists text.
      * injection E as <- ->. exists before, enc, after.
        split; [done|]. split; [done|]. intros e ?. apply Hb. by right.
Qed.

Lemma first_nonempty_decoding_none (encodings : list encoding)
    (raw : list byte) :
  first_nonempty_decoding encodings raw = None ↔
    ∀ e, e ∈ encodings → ¬ ∃ t, yields e raw t.
Proof.
  induction encodings as [|enc0 encodings IH]; simpl.
  { split; [|done]. by intros _ e ?%elem_of_nil. }
  destruct (nonempty_decoding enc0 raw) as [t0|] eqn:E0.
  - apply nonempty_decoding_spec in E0. split; [done|].
    intros H. destruct (H enc0); [left|by exists t0].
  - apply nonempty_decoding_none in E0. rewrite IH. split.
    + intros H e [-> |?]%elem_of_cons; auto.
    + intros H e ?. apply H. by right.
Qed.

Lemma first_nonempty_decoding_nonempty (encodings : list encoding)
    (raw : list byte) (text : str) :
  first_nonempty_decoding encodings raw = Some text → text ≠ [].
Proof.
  intros (_ & _ & _ & _ & [_ ?] & _)%first_nonempty_decoding_some. done.
Qed.

(** The decode step in terms of [first_nonempty_decoding]. *)
Lemma decode_step_first (raw : list byte) :
  fetch_decode (Some raw)
  = match first_nonempty_decoding ENCODINGS raw with
    | Some text => Ok text
    | None => Raise RuntimeError
    end.
Proof.
  unfold fetch_decode. rewrite decode_loop_first.
  destruct (first_nonempty_decoding ENCODINGS raw) as [text|] eqn:E; [|done].
  apply first_nonempty_decoding_nonempty in E. by destruct text.
Qed.

(** C7. The decode step returns the text of the first of UTF-8,
    UTF-8 with BOM and latin-1, in this order, that decodes the body to
    a non-empty string; it fails with [RuntimeError] exactly when none
    of them does, and it fails on the empty body. *)
Theorem fetch_decode_first_nonempty_encoding (raw : list byte) :
  ENCODINGS = [Utf8; Utf8Sig; Latin1]
  ∧ (∀ text, fetch_decode (Some raw) = Ok text ↔
       ∃ before enc after,
         [Utf8; Utf8Sig; Latin1] = before ++ enc :: after
         ∧ yields enc raw text
         ∧ ∀ e, e ∈ before → ¬ ∃ t, yields e raw t)
  ∧ (fetch_decode (Some raw) = Raise RuntimeError ↔
       ∀ e, e ∈ [Utf8; Utf8Sig; Latin1] → ¬ ∃ t, yields e raw t)
  ∧ (∀ e, fetch_decode (Some raw) = Raise e → e = RuntimeError)
  ∧ fetch_decode (Some []) = Raise RuntimeError.
Proof.
  split; [done|]. rewrite decode_step_first.
  change [Utf8; Utf8Sig; Latin1] with ENCODINGS.
  split; [|split; [|split]].
  - intros text. rewrite <- first_nonempty_decoding_some.
    destruct (first_nonempty_decoding ENCODINGS raw); split; congruence.
  - rewrite <- first_nonempty_decoding_none.
    by destruct (first_nonempty_decoding ENCODINGS raw).
  - intros e. destruct (first_nonempty_decoding ENCODINGS raw); congruence.
  - done.
Qed.

(** X8. The last encoding decodes every body, so the decode step fails
    on the empty body only. *)
Lemma fetch_decode_fails_iff_empty (raw : list byte) :
  fetch_decode (Some raw) = Raise RuntimeError ↔ raw = [].
Proof.
  split; [|by intros ->].
  rewrite decode_step_first.
  destruct (first_nonempty_decoding ENCODINGS raw) eqn:E; [done|]. intros _.
  pose proof (proj1 (first_nonempty_decoding_none _ _) E) as H.
  destruct raw as [|b raw]; [done|]. destruct (H Latin1).
  - set_solver.
  - by exists (Byte.to_N b :: List.map Byte.to_N raw).
Qed.

(** ** Writing *)

Lemma header_text (updated_at : str) (total_rules : nat) :
  concat ((fun line => line ++ [10]) <$> header_lines updated_at total_rules)
  = lit "# Updated time: " ++ updated_at ++ [10]
    ++ lit "# Total rules: " ++ str_of_N (N.of_nat total_rules) ++ [10]
    ++ lit "# Thanks: adrules.top and whatshub.top" ++ [10]
    ++ [10].
Proof.
  unfold header_lines. cbn [fmap list_fmap concat app].
  by rewrite <- !app_assoc.
Qed.

Lemma set_file_set_file (path c1 c2 : str) (fs : filesystem) :
  set_file path c2 (set_file path c1 fs) = set_file path c2 fs.
Proof. unfold set_file. cbn. by rewrite insert_insert_eq. Qed.

Lemma content_of_set_file (path c : str) (fs : filesystem) :
  content_of path (set_file path c fs) = c.
Proof. unfold content_of, set_file. cbn. by rewrite lookup_insert_eq. Qed.

Lemma content_of_lookup (path c : str) (fs : filesystem) :
  files fs !! path = Some c → content_of path fs = c.
Proof. unfold content_of. by intros ->. Qed.

Lemma files_set_file (path c : str) (fs : filesystem) :
  files (set_file path c fs) !! path = Some c.
Proof. apply lookup_insert_eq. Qed.

(** A write returns exactly when the text can be encoded and the device
    stores the new content. *)
Lemma write_ok_iff (path text : str) (fs fs' : filesystem) :
  write path text fs = (Ok (), fs') ↔
    encodable text = true
    ∧ device fs path (content_of path fs ++ text) = Stored
    ∧ fs' = set_file path (content_of path fs ++ text) fs.
Proof.
  unfold write, encodable. destruct (forallb is_scalar_value text).
  - destruct (device fs path (content_of path fs ++ text)); split.
    + by intros [= <-].
    + by intros (_ & _ & ->).
    + done.
    + by intros (_ & ? & _).
  - split; [done|]. by intros [? _].
Qed.

Lemma bind_ok_inv {A B} (m : io A) (k : A → io B) (fs fs' : filesystem) (b : B) :
  (m ≫= k) fs = (Ok b, fs') →
  ∃ a fs1, m fs = (Ok a, fs1) ∧ k a fs1 = (Ok b, fs').
Proof.
  unfold mbind, io_bind. destruct (m fs) as [[a|e] fs1]; [|done].
  intros H. by exists a, fs1.
Qed.

Lemma for_each_write {A} (xs : list A) (f : A → str) (path c : str)
    (fs : filesystem) :
  (∀ content, device fs path content = Stored) →
  Forall (fun x => encodable (f x) = true) xs →
  for_each xs (fun x => write path (f x)) (set_file path c fs)
  = (Ok (), set_file path (c ++ concat (f <$> xs)) fs).
Proof.
  intros Hd Hxs. revert c. induction Hxs as [|x xs Hx _ IH]; intros c.
  - cbn [fmap list_fmap concat for_each]. by rewrite app_nil_r.
  - cbn [fmap list_fmap concat for_each]. unfold mbind, io_bind.
    rewrite (proj2 (write_ok_iff path (f x) (set_file path c fs)
                      (set_file path (c ++ f x) fs))).
    + rewrite IH. by rewrite <- app_assoc.
    + rewrite content_of_set_file. split; [done|]. split; [apply Hd|].
      by rewrite set_file_set_file.
Qed.

Lemma for_each_write_ok_inv {A} (xs : list A) (f : A → str) (path c : str)
    (fs fs' : filesystem) :
  for_each xs (fun x => write path (f x)) fs = (Ok (), fs') →
  files fs !! path = Some c →
  files fs' !! path = Some (c ++ concat (f <$> xs)).
Proof.
  revert c fs. induction xs as [|x xs IH]; intros c fs.
  - intros [= <-] Hc. cbn [fmap list_fmap concat]. by rewrite app_nil_r.
  - cbn [for_each]. intros ([] & fs1 & Hw & Hrest)%bind_ok_inv Hc.
    apply write_ok_iff in Hw as (_ & _ & ->).
    rewrite (content_of_lookup _ _ _ Hc) in Hrest.
    cbn [fmap list_fmap concat]. rewrite app_assoc.
    apply (IH _ _ Hrest). apply files_set_file.
Qed.

Lemma for_each_rule_cons (r : str) (items : list pyobj) (path : str)
    (fs : filesystem) :
  for_each (PyStr r :: items)
    (fun rule => text ← lift (add_newline rule); write path text) fs
  = (write path (r ++ [10]);;
     for_each items
       (fun rule => text ← lift (add_newline rule); write path text)) fs.
Proof. reflexivity. Qed.

Lemma for_each_rules (rules : list str) (path : str) (fs : filesystem) :
  for_each (PyStr <$> rules)
    (fun rule => text ← lift (add_newline rule); write path text) fs
  = for_each rules (fun rule => write path (rule ++ [10])) fs.
Proof.
  revert fs. induction rules as [|r rules IH]; intros fs; [done|].
  cbn [fmap list_fmap]. rewrite for_each_rule_cons. cbn [for_each].
  unfold mbind, io_bind.
  destruct (write path (r ++ [10]) fs) as [[[]|e] fs']; [apply IH|done].
Qed.



Lemma uint_digits_are_digits (d : Decimal.uint) :
  forallb is_digit (uint_digits d) = true.
Proof. induction d; simpl; by rewrite ?IHd. Qed.

Lemma zero_pad_digits (width : nat) (n : N) :
  forallb is_digit (zero_pad width n) = true.
Proof.
  unfold zero_pad, str_of_N.
  rewrite forallb_app, uint_digits_are_digits, andb_true_r.
  apply forallb_forall. intros c Hc%list_elem_of_In.
  by apply elem_of_replicate in Hc as [-> _].
Qed.

Lemma strftime_iso_z_chars (now : datetime) :
  forallb (fun c => is_digit c || (c =? 45) || (c =? 84) || (c =? 58) || (c =? 90))
    (strftime_iso_z now) = true.
Proof.
  assert (Hd : ∀ s, forallb is_digit s = true →
            forallb (fun c => is_digit c || (c =? 45) || (c =? 84)
                              || (c =? 58) || (c =? 90)) s = true).
  { intros s. rewrite !forallb_forall. intros H c Hc. by rewrite (H c Hc). }
  unfold strftime_iso_z, str_of_N. rewrite !forallb_app.
  rewrite !(Hd _ (zero_pad_digits _ _)), (Hd _ (uint_digits_are_digits _)).
  reflexivity.
Qed.

Lemma digits_encodable (s : str) : forallb is_digit s = true → encodable s = true.
Proof.
  unfold encodable. rewrite !forallb_forall. intros H c Hc.
  specialize (H c Hc). unfold is_digit in H.
  apply andb_true_iff in H as [_ H%N.leb_le].
  unfold is_scalar_value. apply orb_true_iff. left. apply N.ltb_lt. lia.
Qed.

Lemma encodable_app (a b : str) : encodable (a ++ b) = encodable a && encodable b.
Proof. apply forallb_app. Qed.

Lemma strftime_iso_z_encodable (now : datetime) :
  encodable (strftime_iso_z now) = true.
Proof.
  pose proof (strftime_iso_z_chars now) as H. unfold encodable.
  rewrite forallb_forall in *. intros c Hc. specialize (H c Hc).
  unfold is_scalar_value. apply orb_true_iff. left. apply N.ltb_lt.
  unfold is_digit in H.
  rewrite !orb_true_iff, andb_true_iff, !N.eqb_eq, !N.leb_le in H. lia.
Qed.

Lemma header_encodable (now : datetime) (total_rules : nat) :
  Forall (fun line => encodable (line ++ [10]) = true)
    (header_lines (strftime_iso_z now) total_rules).
Proof.
  unfold header_lines. repeat constructor.
  - by rewrite !encodable_app, strftime_iso_z_encodable.
  - rewrite !encodable_app. unfold str_of_N.
    by rewrite (digits_encodable _ (uint_digits_are_digits _)).
Qed.

(** A list of rule strings that can be encoded and a path the system
    takes: the file holds the header and the rules. *)
Lemma write_rules_ok (now : datetime) (rules : list str) (path : str)
    (fs : filesystem) :
  path ≠ [] → can_store fs path →
  Forall (fun rule => encodable rule = true) rules →
  write_rules_to_file now (PyList (PyStr <$> rules)) (PyStr path) fs
  = (Ok (), set_file path (expected_file now rules) fs).
Proof.
  intros Hp (Hnul & Hopen & Hw & Hdev & Hclose) Hrules.
  destruct path as [|c p]; [done|]. unfold write_rules_to_file.
  unfold mbind at 1, io_bind at 1, lift at 1, py_len. rewrite length_fmap.
  unfold except_OSError, with_open, open_w. rewrite Hnul, Hopen, Hw.
  unfold mbind at 1, io_bind at 1.
  rewrite (for_each_write _ _ _ [] fs Hdev (header_encodable now (length rules))).
  unfold mbind at 1, io_bind at 1, lift at 1, py_iter.
  rewrite for_each_rules, (for_each_write rules (fun rule => rule ++ [10])).
  - unfold close. cbn [closing set_file]. rewrite Hclose. f_equal. f_equal.
    rewrite header_text. unfold expected_file.
    repeat (rewrite <- ?app_assoc; cbn [app]). reflexivity.
  - done.
  - apply Forall_forall. intros r Hr. rewrite encodable_app.
    rewrite Forall_forall in Hrules. by rewrite (Hrules r Hr).
Qed.

Lemma with_open_ok_inv {A} (path : str) (body : io A) (fs fs' : filesystem)
    (a : A) :
  with_open path body fs = (Ok a, fs') →
  has_nul path = false ∧ open_error fs path = None ∧ writable fs path = true
  ∧ body (set_file path [] fs) = (Ok a, fs').
Proof.
  unfold with_open, open_w.
  destruct (has_nul path); [done|].
  destruct (open_error fs path); [done|].
  destruct (writable fs path); [|done].
  destruct (body (set_file path [] fs)) as [r fs2]. unfold close.
  destruct (closing fs2 path (content_of path fs2)); [|done].
  by intros [= -> ->].
Qed.

Lemma except_OSError_ok_inv {A} (m : io A) (fs fs' : filesystem) (a : A) :
  except_OSError m fs = (Ok a, fs') → m fs = (Ok a, fs').
Proof. unfold except_OSError. by destruct (m fs) as [[a'|[]] fs1]. Qed.

(** When the writer returns, the file was opened and holds the header
    and the rules. *)
Lemma write_rules_ok_inv (now : datetime) (rules : list str) (path : str)
    (fs fs' : filesystem) :
  write_rules_to_file now (PyList (PyStr <$> rules)) (PyStr path) fs
  = (Ok (), fs') →
  files fs' !! path = Some (expected_file now rules)
  ∧ has_nul path = false ∧ open_error fs path = None
  ∧ writable fs path = true.
Proof.
  destruct path as [|c p]; [done|]. unfold write_rules_to_file.
  intros (n & fs0 & [= <- <-] & H)%bind_ok_inv. cbv zeta in H.
  apply except_OSError_ok_inv, with_open_ok_inv in H
    as (Hnul & Hopen & Hw & Hbody).
  split; [|done].
  apply bind_ok_inv in Hbody as ([] & fsa & Hhead & Hbody).
  apply bind_ok_inv in Hbody as (items & fsb & [= <- <-] & Hbody).
  rewrite for_each_rules in Hbody.
  apply (for_each_write_ok_inv _ _ _ []) in Hhead; [|apply files_set_file].
  apply (for_each_write_ok_inv _ _ _ _ _ _ Hbody) in Hhead.
  rewrite Hhead. f_equal. rewrite length_fmap, header_text.
  unfold expected_file. repeat (rewrite <- ?app_assoc; cbn [app]). reflexivity.
Qed.

Lemma forallb_below (P : N → bool) (bound n : N) :
  forallb P (N.of_nat <$> seq 0 (N.to_nat bound)) = true →
  n < bound → P n = true.
Proof.
  intros Hall Hn. rewrite forallb_forall in Hall. apply Hall.
  apply list_elem_of_In, list_elem_of_fmap. exists (N.to_nat n).
  split; [lia|]. apply elem_of_seq. lia.
Qed.

Lemma pad_ok_2 (n : N) : n < 100 → pad_ok 2 n = true.
Proof. apply (forallb_below (pad_ok 2) 100). vm_compute. reflexivity. Qed.

(** From 1000 on a year is its own four digits. *)
Lemma year_four_digits (n : N) :
  1000 ≤ n → n < 10000 → str_of_N n = zero_pad 4 n ∧ pad_ok 4 n = true.
Proof.
  intros Hlo Hhi.
  pose proof (forallb_below
    (fun n => (n <? 1000)
              || (bool_decide (str_of_N n = zero_pad 4 n) && pad_ok 4 n))
    10000 n) as H.
  cbv beta in H. destruct (N.ltb_spec n 1000) as [?|_]; [lia|].
  cbn [orb] in H. rewrite andb_true_iff, bool_decide_eq_true in H.
  apply H; [|done]. vm_compute. reflexivity.
Qed.

Lemma pad_ok_2_inv (n : N) :
  pad_ok 2 n = true →
  ∃ a b, zero_pad 2 n = [a; b] ∧ is_digit a = true ∧ is_digit b = true.
Proof.
  unfold pad_ok. rewrite andb_true_iff, bool_decide_eq_true.
  destruct (zero_pad 2 n) as [|a [|b [|? ?]]]; intros [Hlen H];
    try discriminate Hlen.
  cbn [forallb] in H. rewrite !andb_true_iff in H.
  destruct H as (Ha & Hb & _). by exists a, b.
Qed.

Lemma pad_ok_4_inv (n : N) :
  pad_ok 4 n = true →
  ∃ a b c d, zero_pad 4 n = [a; b; c; d]
    ∧ is_digit a = true ∧ is_digit b = true
    ∧ is_digit c = true ∧ is_digit d = true.
Proof.
  unfold pad_ok. rewrite andb_true_iff, bool_decide_eq_true.
  destruct (zero_pad 4 n) as [|a [|b [|c [|d [|? ?]]]]]; intros [Hlen H];
    try discriminate Hlen.
  cbn [forallb] in H. rewrite !andb_true_iff in H.
  destruct H as (Ha & Hb & Hc & Hd & _). by exists a, b, c, d.
Qed.

(** The time stamp of a date of the calendar. *)
Lemma valid_datetime_shape (t : datetime) :
  valid_datetime t → iso_z_shape (strftime_iso_z t) = true.
Proof.
  intros (Hy & Hm & Hd & Hh & Hmi & Hs). unfold strftime_iso_z.
  destruct (year_four_digits (year t)) as [-> Hy4]; [lia..|].
  destruct (pad_ok_4_inv _ Hy4) as (y1 & y2 & y3 & y4 & -> & ? & ? & ? & ?).
  destruct (pad_ok_2_inv (month t)) as (m1 & m2 & -> & ? & ?);
    [apply pad_ok_2; lia|].
  destruct (pad_ok_2_inv (day t)) as (d1 & d2 & -> & ? & ?);
    [apply pad_ok_2; lia|].
  destruct (pad_ok_2_inv (hour t)) as (h1 & h2 & -> & ? & ?);
    [apply pad_ok_2; lia|].
  destruct (pad_ok_2_inv (minute t)) as (mi1 & mi2 & -> & ? & ?);
    [apply pad_ok_2; lia|].
  destruct (pad_ok_2_inv (second t)) as (s1 & s2 & -> & ? & ?);
    [apply pad_ok_2; lia|].
  change (lit "-") with [45]. change (lit "T") with [84].
  change (lit ":") with [58]. change (lit "Z") with [90].
  cbn [app iso_z_shape forallb]. rewrite !N.eqb_refl.
  repeat match goal with H : is_digit _ = true |- _ => rewrite H; clear H end.
  reflexivity.
Qed.

(** X21. From the year 1000 to the year 9999, the time stamp of a date
    of the calendar has the shape [YYYY-MM-DDTHH:MM:SSZ]. *)
Lemma strftime_iso_z_shape (t : datetime) :
  1000 ≤ year t ≤ 9999 → 1 ≤ month t ≤ 12 → 1 ≤ day t ≤ 31 →
  hour t ≤ 23 → minute t ≤ 59 → second t ≤ 59 →
  iso_z_shape (strftime_iso_z t) = true.
Proof. intros. by apply valid_datetime_shape. Qed.


(** * Further properties *)

(** ** Trimming and classification *)

Lemma lstrip_split (s : str) :
  ∃ ws, s = ws ++ lstrip s ∧ forallb isspace ws = true.
Proof.
  induction s as [|c s (ws & E & Hws)]; [by exists []|]. simpl.
  destruct (isspace c) eqn:Hc; [|by exists []].
  exists (c :: ws). simpl. rewrite Hc, Hws. split; [|done]. by rewrite <- E.
Qed.

Lemma rstrip_split (s : str) :
  ∃ ws, s = rstrip s ++ ws ∧ forallb isspace ws = true.
Proof.
  destruct (lstrip_split (reverse s)) as (ws & E & Hws).
  exists (reverse ws). rewrite forallb_isspace_reverse. split; [|done].
  unfold rstrip. rewrite <- reverse_app, <- E. by rewrite reverse_involutive.
Qed.

Lemma lstrip_app_ws_l (ws s : str) :
  forallb isspace ws = true → lstrip (ws ++ s) = lstrip s.
Proof.
  induction ws as [|c ws IH]; [done|]. simpl.
  intros [-> ?]%andb_true_iff. auto.
Qed.

Lemma rstrip_app_ws_r (s ws : str) :
  forallb isspace ws = true → rstrip (s ++ ws) = rstrip s.
Proof.
  intros Hws. unfold rstrip. rewrite reverse_app.
  rewrite lstrip_app_ws_l; [done|]. by rewrite forallb_isspace_reverse.
Qed.

Lemma lstrip_app_r (s t : str) :
  lstrip (s ++ t) = match lstrip s with [] => lstrip t | _ => lstrip s ++ t end.
Proof.
  induction s as [|c s IH]; simpl; [by destruct (lstrip t)|].
  by destruct (isspace c).
Qed.

Lemma strip_padding (ws1 s ws2 : str) :
  forallb isspace ws1 = true → forallb isspace ws2 = true →
  strip (ws1 ++ s ++ ws2) = strip s.
Proof.
  intros H1 H2. unfold strip. rewrite lstrip_app_ws_l by done.
  rewrite lstrip_app_r. destruct (lstrip s) as [|c t] eqn:E.
  - by apply lstrip_nil_iff in H2 as ->.
  - by apply rstrip_app_ws_r.
Qed.

(** X1. The normalizer removes white space at the two ends of the line
    and nothing else. *)
Theorem normalize_removes_outer_whitespace_only (line : str) :
  ∃ ws1 ws2,
    line = ws1 ++ normalize_rule_line (Some line) ++ ws2
    ∧ forallb isspace ws1 = true ∧ forallb isspace ws2 = true.
Proof.
  destruct (lstrip_split line) as (ws1 & E1 & H1).
  destruct (rstrip_split (lstrip line)) as (ws2 & E2 & H2).
  exists ws1, ws2. simpl. unfold strip. by rewrite <- E2, <- E1.
Qed.

(** X2. Normalizing twice is normalizing once, and a normalized line
    neither starts nor ends with white space. *)
Theorem normalize_idempotent_no_outer_whitespace (line : str) :
  normalize_rule_line (Some (normalize_rule_line (Some line)))
  = normalize_rule_line (Some line)
  ∧ (∀ c t, normalize_rule_line (Some line) = c :: t → isspace c = false)
  ∧ (∀ t c, normalize_rule_line (Some line) = t ++ [c] → isspace c = false).
Proof.
  simpl. split; [apply strip_idem|]. split.
  - intros c t E. destruct (strip_cases line) as [E'|(c' & t' & _ & Hc & E')];
      rewrite E' in E; [done|]. by injection E as <- _.
  - intros t c E. unfold strip, rstrip in E.
    apply (f_equal reverse) in E.
    rewrite reverse_involutive, reverse_snoc in E.
    by eapply lstrip_head.
Qed.

(** X3. White space around a line changes neither its classification
    nor its normal form. *)
Theorem whitespace_padding_is_ignored (ws1 line ws2 : str) :
  forallb isspace ws1 = true → forallb isspace ws2 = true →
  is_comment_or_empty (Some (ws1 ++ line ++ ws2))
  = is_comment_or_empty (Some line)
  ∧ normalize_rule_line (Some (ws1 ++ line ++ ws2))
    = normalize_rule_line (Some line).
Proof.
  intros H1 H2. unfold is_comment_or_empty, normalize_rule_line.
  by rewrite strip_padding.
Qed.

(** ** More on the merge stage *)

Lemma rule_of_app (xs ys : list pyobj) (r : str) :
  rule_of (xs ++ ys) r ↔ rule_of xs r ∨ rule_of ys r.
Proof.
  unfold rule_of. split.
  - intros (src & [?|?]%elem_of_app & Hr); [left|right]; by exists src.
  - intros [(src & ? & Hr)|(src & ? & Hr)]; exists src;
      rewrite elem_of_app; auto.
Qed.

(** The rules of an output passed again as a source are its elements. *)
Lemma rule_of_output (sources : list pyobj) (rules : list str) (r : str) :
  merge_and_deduplicate_rules (PyList sources) = Ok rules →
  retained_rule (PyStr <$> rules) r ↔ r ∈ rules.
Proof.
  intros (_ & _ & Hel)%merge_characterized. split.
  - intros (line & Hin & Hr & ->).
    apply list_elem_of_fmap in Hin as (line' & [= <-] & Hin).
    pose proof (proj1 (Hel _) Hin) as Hrule.
    by destruct (rule_of_clean _ _ Hrule) as (_ & -> & _).
  - intros Hr. pose proof (proj1 (Hel r) Hr) as Hrule.
    destruct (rule_of_clean _ _ Hrule) as (_ & Hs & Hc).
    exists r. split; [|done]. apply list_elem_of_fmap. by exists r.
Qed.

(** X4. No rule is lost: the output holds the normal form of every
    string line of a list source that the classifier retains. *)
Theorem merge_output_complete (sources : list pyobj) :
  sources ≠ [] →
  ∃ rules,
    merge_and_deduplicate_rules (PyList sources) = Ok rules
    ∧ ∀ source_lines line,
        PyList source_lines ∈ sources → PyStr line ∈ source_lines →
        is_comment_or_empty (Some line) = false →
        normalize_rule_line (Some line) ∈ rules.
Proof.
  intros Hne. eexists. split; [by apply merge_nonempty|].
  destruct (merge_characterized sources _ (merge_nonempty _ Hne))
    as (_ & _ & Hel).
  intros src line Hsrc Hline Hc. apply Hel. exists src. split; [done|].
  by exists line.
Qed.

(** X5. The output depends on the set of rules of the input only: two
    non-empty inputs with the same rules give the same output. *)
Theorem merge_depends_on_rule_set_only (xs ys : list pyobj) :
  xs ≠ [] → ys ≠ [] →
  (∀ r, rule_of xs r ↔ rule_of ys r) →
  merge_and_deduplicate_rules (PyList xs)
  = merge_and_deduplicate_rules (PyList ys).
Proof.
  intros Hx Hy H. rewrite !merge_nonempty by done. f_equal.
  by apply (merge_same_rules xs ys); try apply merge_nonempty.
Qed.

(** X6. The output for the sources of two inputs together holds the
    rules of the two outputs, and no other. *)
Theorem merge_app_is_union (xs ys : list pyobj) :
  xs ≠ [] → ys ≠ [] →
  ∃ rx ry rxy,
    merge_and_deduplicate_rules (PyList xs) = Ok rx
    ∧ merge_and_deduplicate_rules (PyList ys) = Ok ry
    ∧ merge_and_deduplicate_rules (PyList (xs ++ ys)) = Ok rxy
    ∧ ∀ r, r ∈ rxy ↔ r ∈ rx ∨ r ∈ ry.
Proof.
  intros Hx Hy.
  assert (Hxy : xs ++ ys ≠ []) by (by destruct xs).
  pose proof (merge_nonempty _ Hx) as Ex.
  pose proof (merge_nonempty _ Hy) as Ey.
  pose proof (merge_nonempty _ Hxy) as Exy.
  eexists _, _, _. split; [exact Ex|]. split; [exact Ey|]. split; [exact Exy|].
  apply merge_characterized in Ex as (_ & _ & Hx').
  apply merge_characterized in Ey as (_ & _ & Hy').
  apply merge_characterized in Exy as (_ & _ & Hxy').
  intros r. by rewrite Hxy', rule_of_app, Hx', Hy'.
Qed.

(** X7. Merging can be done in stages: merging the outputs of two runs
    gives what one run on all the sources gives. *)
Theorem merge_of_outputs (xs ys : list pyobj) :
  xs ≠ [] → ys ≠ [] →
  ∃ rx ry,
    merge_and_deduplicate_rules (PyList xs) = Ok rx
    ∧ merge_and_deduplicate_rules (PyList ys) = Ok ry
    ∧ merge_and_deduplicate_rules
        (PyList [PyList (PyStr <$> rx); PyList (PyStr <$> ry)])
      = merge_and_deduplicate_rules (PyList (xs ++ ys)).
Proof.
  intros Hx Hy.
  assert (Hxy : xs ++ ys ≠ []) by (by destruct xs).
  set (rx := list_sort (foldl merge_source (∅, []) xs).2).
  set (ry := list_sort (foldl merge_source (∅, []) ys).2).
  assert (Ex : merge_and_deduplicate_rules (PyList xs) = Ok rx)
    by by apply merge_nonempty.
  assert (Ey : merge_and_deduplicate_rules (PyList ys) = Ok ry)
    by by apply merge_nonempty.
  exists rx, ry. split; [exact Ex|]. split; [exact Ey|].
  rewrite (merge_nonempty (xs ++ ys)) by done.
  rewrite (merge_nonempty [_; _]) by done. f_equal.
  apply (merge_same_rules [PyList (PyStr <$> rx); PyList (PyStr <$> ry)] (xs ++ ys));
    try by apply merge_nonempty.
  intros r. rewrite !rule_of_cons, rule_of_app.
  pose proof (rule_of_output _ _ r Ex) as Hrx.
  pose proof (rule_of_output _ _ r Ey) as Hry.
  apply merge_characterized in Ex as (_ & _ & Hx').
  apply merge_characterized in Ey as (_ & _ & Hy').
  rewrite <- Hx', <- Hy', <- Hrx, <- Hry. split.
  - intros [(src & [= <-] & ?)|[(src & [= <-] & ?)|(? & []%elem_of_nil & _)]]; auto.
  - intros [?|?]; [left|right; left]; eexists; eauto.
Qed.

(** ** More on decoding *)

Lemma decode_utf8_step (b : byte) (raw : list byte) (text : str) :
  decode_utf8 (b :: raw) = Some text →
  ∃ c rest text',
    text = c :: text' ∧ decode_utf8 rest = Some text'
    ∧ (length rest < length (b :: raw))%nat
    ∧ is_scalar_value c = true.
Proof.
  cbn [decode_utf8]. cbv zeta. intros H.
  assert (Hs : ∀ c, c < 55296 ∨ 57344 ≤ c < 1114112 → is_scalar_value c = true).
  { intros c Hc. unfold is_scalar_value.
    rewrite orb_true_iff, andb_true_iff, !N.ltb_lt, N.leb_le. lia. }
  pose proof (Byte.to_N_bounded b) as Hb.
  repeat case_match; simplify_eq;
    apply fmap_Some in H as (text' & Ht & ->);
    eexists _, _, text'; (split; [done|]); (split; [exact Ht|]);
    (split; [simpl; lia|]); apply Hs;
    unfold second3, second4, is_cont in *;
    repeat match goal with
      | H : _ && _ = true |- _ => apply andb_true_iff in H as [? ?]
      | H : (if ?b then _ else _) = true |- _ => destruct b eqn:?
      | H : (_ <=? _) = true |- _ => apply N.leb_le in H
      | H : (_ <? _) = true |- _ => apply N.ltb_lt in H
      | H : (_ =? _) = true |- _ => apply N.eqb_eq in H
      | H : (_ <? _) = false |- _ => apply N.ltb_ge in H
      | H : (_ =? _) = false |- _ => apply N.eqb_neq in H
      end;
    lia.
Qed.

Lemma decode_utf8_scalar (raw : list byte) (text : str) :
  decode_utf8 raw = Some text → forallb is_scalar_value text = true.
Proof.
  remember (length raw) as n eqn:Hn. revert raw text Hn.
  induction n as [n IH] using lt_wf_ind. intros [|b raw] text -> H.
  - by injection H as <-.
  - apply decode_utf8_step in H as (c & rest & text' & -> & Ht & Hlen & Hc).
    simpl. rewrite Hc. simpl. by eapply (IH (length rest)).
Qed.

Lemma decode_utf8_byte_order_mark (rest : list byte) :
  decode_utf8 (xef :: xbb :: xbf :: rest) = cons 65279 <$> decode_utf8 rest.
Proof. reflexivity. Qed.

Lemma byte_of_value (b : byte) (n : N) : Byte.to_N b = n → Byte.of_N n = Some b.
Proof. intros <-. apply Byte.of_to_N. Qed.

(** When UTF-8 fails, UTF-8 with BOM fails as well. *)
Lemma decode_utf8_sig_none (raw : list byte) :
  decode_utf8 raw = None → decode_utf8_sig raw = None.
Proof.
  intros H. unfold decode_utf8_sig.
  destruct raw as [|b0 [|b1 [|b2 rest]]]; try done.
  destruct ((Byte.to_N b0 =? 239) && (Byte.to_N b1 =? 187)
            && (Byte.to_N b2 =? 191)) eqn:E; [|done].
  rewrite !andb_true_iff, !N.eqb_eq in E. destruct E as [[E0 E1] E2].
  apply byte_of_value in E0, E1, E2. simpl in E0, E1, E2.
  injection E0 as <-. injection E1 as <-. injection E2 as <-.
  rewrite decode_utf8_byte_order_mark in H. by destruct (decode_utf8 rest).
Qed.

(** On a non-empty body the loop ends with the UTF-8 decoding, or with
    the latin-1 decoding when there is none. *)
Lemma decode_loop_nonempty_body (b : byte) (raw : list byte) :
  decode_loop ENCODINGS (b :: raw) []
  = default (Byte.to_N <$> b :: raw) (decode_utf8 (b :: raw))
  ∧ decode_loop ENCODINGS (b :: raw) [] ≠ [].
Proof.
  unfold ENCODINGS. cbn [decode_loop decode].
  destruct (decode_utf8 (b :: raw)) as [text|] eqn:E.
  - apply decode_utf8_step in E as (c & ? & text' & -> & _). done.
  - by rewrite (decode_utf8_sig_none _ E).
Qed.

(** X9. UTF-8 with BOM never decides: the text of a non-empty body is
    its UTF-8 decoding when it has one, and its latin-1 decoding when
    it has none. *)
Theorem fetch_decode_is_utf8_or_latin1 (b : byte) (raw : list byte) :
  fetch_decode (Some (b :: raw))
  = Ok (default (Byte.to_N <$> b :: raw) (decode_utf8 (b :: raw))).
Proof.
  unfold fetch_decode.
  destruct (decode_loop_nonempty_body b raw) as [E Hne]. rewrite <- E.
  by destruct (decode_loop ENCODINGS (b :: raw) []).
Qed.

(** X10. A byte order mark is not removed: a UTF-8 body that starts
    with EF BB BF decodes to a text that starts with U+FEFF. *)
Theorem fetch_decode_keeps_byte_order_mark (rest : list byte) (text : str) :
  decode_utf8 rest = Some text →
  fetch_decode (Some (xef :: xbb :: xbf :: rest)) = Ok (65279 :: text).
Proof.
  intros H. unfold fetch_decode, ENCODINGS. cbn [decode_loop decode].
  by rewrite decode_utf8_byte_order_mark, H.
Qed.

(** X11. The decoded text holds Unicode scalar values only: no
    surrogate and nothing above U+10FFFF. *)
Theorem fetch_decode_scalar_values (raw_data : option (list byte)) (text : str) :
  fetch_decode raw_data = Ok text → forallb is_scalar_value text = true.
Proof.
  destruct raw_data as [[|b raw]|]; try done. unfold fetch_decode.
  destruct (decode_loop_nonempty_body b raw) as [E Hne].
  destruct (decode_loop ENCODINGS (b :: raw) []) as [|c t] eqn:El; [done|].
  intros [= <-]. rewrite E.
  destruct (decode_utf8 (b :: raw)) as [text|] eqn:Eu; cbn [default].
  - by apply decode_utf8_scalar in Eu.
  - apply forallb_forall. intros c' Hc.
    apply list_elem_of_In, list_elem_of_fmap in Hc as (b' & -> & _).
    pose proof (Byte.to_N_bounded b'). unfold is_scalar_value.
    apply orb_true_iff. left. apply N.ltb_lt. lia.
Qed.

(** ** Splitting into lines *)

Lemma splitlines_from_content (text line : str) :
  concat (splitlines_from line text)
  = line ++ List.filter (fun c => negb (is_line_boundary c)) text.
Proof.
  remember (length text) as n eqn:Hn. revert text line Hn.
  induction n as [n IH] using lt_wf_ind. intros [|c text] line ->.
  - simpl. destruct line; simpl; by rewrite ?app_nil_r.
  - cbn [splitlines_from List.filter]. destruct (N.eqb_spec c 13) as [-> |Hc].
    + cbn [is_line_boundary negb]. change (negb (is_line_boundary 13)) with false.
      cbv iota. destruct text as [|c' text].
      * simpl. by rewrite app_nil_r.
      * destruct (N.eqb_spec c' 10) as [-> |Hc'].
        -- cbn [concat]. rewrite (IH (length text)); [|simpl; lia|done].
           cbn [List.filter]. by change (negb (is_line_boundary 10)) with false.
        -- cbn [concat]. by rewrite (IH (length (c' :: text))); [|simpl; lia|].
    + destruct (is_line_boundary c) eqn:Hb; cbn [negb].
      * cbn [concat]. by rewrite (IH (length text)); [|simpl; lia|].
      * rewrite (IH (length text)); [|simpl; lia|done].
        by rewrite <- app_assoc.
Qed.

Lemma splitlines_from_no_boundary (text line : str) :
  no_line_boundary line = true →
  Forall (fun l => no_line_boundary l = true) (splitlines_from line text).
Proof.
  remember (length text) as n eqn:Hn. revert text line Hn.
  induction n as [n IH] using lt_wf_ind. intros [|c text] line -> Hline.
  - simpl. destruct line; repeat constructor. done.
  - cbn [splitlines_from]. destruct (c =? 13).
    + destruct text as [|c' text]; [by repeat constructor|].
      destruct (c' =? 10); constructor; try done.
      * apply (IH (length text)); [simpl; lia|done..].
      * apply (IH (length (c' :: text))); [simpl; lia|done..].
    + destruct (is_line_boundary c) eqn:Hb.
      * constructor; [done|]. apply (IH (length text)); [simpl; lia|done..].
      * apply (IH (length text)); [simpl; lia|done|].
        unfold no_line_boundary in *. rewrite forallb_app, Hline. simpl.
        by rewrite Hb.
Qed.

Lemma splitlines_from_nonempty (text line : str) :
  text ≠ [] → splitlines_from line text ≠ [].
Proof.
  revert line. induction text as [|c text IH]; intros line Hne; [done|].
  cbn [splitlines_from]. destruct (c =? 13).
  - destruct text as [|c' text]; [done|]. by destruct (c' =? 10).
  - destruct (is_line_boundary c); [done|].
    destruct text as [|c' text]; [|by apply IH]. simpl.
    by destruct line.
Qed.

(** A line without boundary, ended by a line feed, is split off. *)
Lemma splitlines_from_line_feed (l line rest : str) :
  no_line_boundary l = true →
  splitlines_from line (l ++ 10 :: rest)
  = (line ++ l) :: splitlines_from [] rest.
Proof.
  revert line. induction l as [|c l IH]; intros line Hl.
  - simpl. by rewrite app_nil_r.
  - unfold no_line_boundary in Hl. simpl in Hl.
    apply andb_true_iff in Hl as [Hc Hl]. apply negb_true_iff in Hc.
    cbn [app splitlines_from]. destruct (N.eqb_spec c 13) as [-> |_]; [done|].
    rewrite Hc, IH by done. by rewrite <- app_assoc.
Qed.

(** X12. Splitting drops the line boundaries and keeps every other
    character, in order. *)
Theorem splitlines_keeps_content (text : str) :
  concat (splitlines text)
  = List.filter (fun c => negb (is_line_boundary c)) text.
Proof. apply (splitlines_from_content text []). Qed.

(** X13. Splitting undoes joining: lines without boundaries, each ended
    by a line feed, are split into the same lines. *)
Theorem splitlines_of_joined_lines (lines : list str) :
  Forall (fun l => no_line_boundary l = true) lines →
  splitlines (concat ((fun l => l ++ [10]) <$> lines)) = lines.
Proof.
  unfold splitlines. induction 1 as [|l lines Hl _ IH]; [done|].
  cbn [fmap list_fmap concat]. rewrite <- app_assoc. cbn [app].
  by rewrite splitlines_from_line_feed, IH.
Qed.

(** X14. No line of the result holds a line boundary, and a text that
    is not empty has at least one line. *)
Theorem splitlines_lines_without_boundary (text : str) :
  Forall (fun l => no_line_boundary l = true) (splitlines text)
  ∧ (text ≠ [] → splitlines text ≠ []).
Proof.
  split; [by apply splitlines_from_no_boundary|].
  apply splitlines_from_nonempty.
Qed.

(** ** The fetcher *)

Lemma fetch_lines_ok (request_ok : str → bool) (urlopen : str → http_outcome)
    (url : str) (lines : list str) :
  fetch_lines_from_url request_ok urlopen (PyStr url) = Ok lines ↔
    url ≠ [] ∧ request_ok url = true
    ∧ ∃ status b raw,
        urlopen url = Response status (Some (b :: raw))
        ∧ (status = None ∨ status = Some 200%Z)
        ∧ lines = splitlines (decode_loop ENCODINGS (b :: raw) []).
Proof.
  unfold fetch_lines_from_url. destruct url as [|c url].
  { split; [done|]. by intros [? _]. }
  destruct (request_ok (c :: url)); cbn [negb];
    [|split; [done|]; by intros (_ & ? & _)].
  destruct (urlopen (c :: url)) as [| | |status raw_data] eqn:E;
    try (split; [done|]; by intros (_ & _ & ? & ? & ? & ? & _)).
  assert (Hstatus : match status with
                    | Some code => negb (code =? 200)%Z
                    | None => false
                    end = false ↔ status = None ∨ status = Some 200%Z).
  { destruct status as [code|]; [|by split; auto].
    rewrite negb_false_iff, Z.eqb_eq. split; [intros ->; auto|].
    by intros [?|[= ->]]. }
  destruct (match status with Some _ => _ | None => _ end).
  { split; [done|]. intros (_ & _ & ? & ? & ? & [= <- _] & Hs & _).
    by apply Hstatus in Hs. }
  destruct raw_data as [[|b raw]|];
    try (split; [done|]; by intros (_ & _ & ? & ? & ? & [=] & _)).
  unfold fetch_decode. destruct (decode_loop_nonempty_body b raw) as [_ Hne].
  destruct (decode_loop ENCODINGS (b :: raw) []) as [|c' t] eqn:El; [done|].
  cbn [py_not]. split.
  - intros [= <-]. split; [done|]. split; [done|]. exists status, b, raw.
    rewrite El. split; [done|]. split; [by apply Hstatus|done].
  - intros (_ & _ & ? & ? & ? & [= <- <- <-] & _ & ->). by rewrite El.
Qed.

(** X15. The fetcher raises [ValueError] exactly when the URL is not a
    non-empty string or [Request] refuses it, whatever the network
    does; every other failure is a [RuntimeError]. *)
Theorem fetch_lines_error_kinds (request_ok : str → bool)
    (urlopen : str → http_outcome) (url : pyobj) :
  (fetch_lines_from_url request_ok urlopen url = Raise ValueError
     ↔ (¬ ∃ u, url = PyStr u ∧ u ≠ [])
       ∨ ∃ u, url = PyStr u ∧ u ≠ [] ∧ request_ok u = false)
  ∧ (∀ e, fetch_lines_from_url request_ok urlopen url = Raise e →
       e = ValueError ∨ e = RuntimeError).
Proof.
  assert (Hd : ∀ raw_data e, fetch_decode raw_data = Raise e → e = RuntimeError).
  { intros [raw|] e; unfold fetch_decode; [|by intros [= <-]].
    destruct (py_not _); [by intros [= <-]|done]. }
  unfold fetch_lines_from_url.
  destruct url as [|z|[|c u]|items];
    try (split; [split; [intros _; left; by intros (? & [=] & _)|done]
                |intros e [= <-]; auto]).
  { split; [split; [intros _; left; by intros (? & [= <-] & ?)|done]
           |intros e [= <-]; auto]. }
  assert (Hv : ¬ ¬ ∃ u0, PyStr (c :: u) = PyStr u0 ∧ u0 ≠ []).
  { intros H. apply H. by eexists. }
  destruct (request_ok (c :: u)) eqn:Hr; cbn [negb].
  2: { split; [split; [|done]|intros e [= <-]; auto].
       intros _. right. by exists (c :: u). }
  assert (Hn : ¬ ((¬ ∃ u0, PyStr (c :: u) = PyStr u0 ∧ u0 ≠ [])
                  ∨ ∃ u0, PyStr (c :: u) = PyStr u0 ∧ u0 ≠ []
                          ∧ request_ok u0 = false)).
  { intros [?|(u0 & [= <-] & _ & ?)]; [done|congruence]. }
  destruct (urlopen (c :: u)) as [| | |status raw_data];
    try (split; [split; [done|by intros ?]|intros e [= <-]; auto]).
  destruct (match status with Some _ => _ | None => _ end);
    [split; [split; [done|by intros ?]|intros e [= <-]; auto]|].
  destruct (fetch_decode raw_data) as [text|e'] eqn:E.
  - split; [split; [done|by intros ?]|done].
  - apply Hd in E as ->. split; [split; [done|by intros ?]|intros e [= <-]; auto].
Qed.

(** X16. The fetcher returns exactly on a non-empty URL that [Request]
    takes, answered by a response whose status is absent or 200 and
    whose body is not empty; it returns the lines of the body decoded
    as UTF-8 or, failing that, as latin-1. *)
Theorem fetch_lines_returns_iff (request_ok : str → bool)
    (urlopen : str → http_outcome) (url : str) (lines : list str) :
  fetch_lines_from_url request_ok urlopen (PyStr url) = Ok lines ↔
    url ≠ [] ∧ request_ok url = true
    ∧ ∃ status b raw,
        urlopen url = Response status (Some (b :: raw))
        ∧ (status = None ∨ status = Some 200%Z)
        ∧ lines = splitlines (default (Byte.to_N <$> b :: raw)
                                (decode_utf8 (b :: raw))).
Proof.
  rewrite fetch_lines_ok. split;
    intros (Hu & Hr & status & b & raw & E & Hs & ->);
    (split; [done|]); (split; [done|]);
    exists status, b, raw; (split; [done|]); (split; [done|]);
    by rewrite (proj1 (decode_loop_nonempty_body b raw)).
Qed.

(** X17. What the fetcher returns is a non-empty list of lines without
    line boundaries. *)
Theorem fetch_lines_result_shape (request_ok : str → bool)
    (urlopen : str → http_outcome) (url : pyobj) (lines : list str) :
  fetch_lines_from_url request_ok urlopen url = Ok lines →
  lines ≠ [] ∧ Forall (fun l => no_line_boundary l = true) lines.
Proof.
  destruct url as [|z|u|items]; try done.
  intros (_ & _ & status & b & raw & _ & _ & ->)%fetch_lines_ok.
  split; [|by apply splitlines_from_no_boundary].
  apply splitlines_from_nonempty. apply decode_loop_nonempty_body.
Qed.

(** ** More on the writer *)

Global Instance same_elsewhere_refl (path : str) : Reflexive (same_elsewhere path).
Proof. by intros fs. Qed.

Global Instance same_elsewhere_trans (path : str) :
  Transitive (same_elsewhere path).
Proof.
  intros f1 f2 f3 [W1 F1] [W2 F2]. split; [congruence|].
  intros p Hp. by rewrite F2, F1.
Qed.

Lemma set_file_elsewhere (path c : str) (fs : filesystem) :
  same_elsewhere path fs (set_file path c fs).
Proof. split; [done|]. intros p Hp. cbn. by rewrite lookup_insert_ne. Qed.

Lemma open_w_elsewhere (path : str) (fs : filesystem) :
  same_elsewhere path fs (open_w path fs).2.
Proof.
  unfold open_w. destruct (has_nul path); [done|].
  destruct (open_error fs path); [done|].
  destruct (writable fs path); [apply set_file_elsewhere|done].
Qed.

Lemma write_elsewhere (path text : str) (fs : filesystem) :
  same_elsewhere path fs (write path text fs).2.
Proof.
  unfold write. destruct (forallb is_scalar_value text); [|done].
  destruct (device fs path _); apply set_file_elsewhere.
Qed.

Lemma close_elsewhere (path : str) (fs : filesystem) :
  same_elsewhere path fs (close path fs).2.
Proof.
  unfold close. destruct (closing fs path _); [done|apply set_file_elsewhere].
Qed.

Lemma bind_elsewhere {A B} (path : str) (m : io A) (k : A → io B)
    (fs : filesystem) :
  same_elsewhere path fs (m fs).2 →
  (∀ a fs', same_elsewhere path fs' (k a fs').2) →
  same_elsewhere path fs ((m ≫= k) fs).2.
Proof.
  intros Hm Hk. unfold mbind, io_bind.
  destruct (m fs) as [[a|e] fs'] eqn:E; simpl in *; [|done].
  by etrans.
Qed.

Lemma for_each_elsewhere {A} (path : str) (xs : list A) (body : A → io unit) :
  (∀ x fs, same_elsewhere path fs (body x fs).2) →
  ∀ fs, same_elsewhere path fs (for_each xs body fs).2.
Proof.
  intros Hbody. induction xs as [|x xs IH]; intros fs; [done|].
  cbn [for_each]. apply bind_elsewhere; [apply Hbody|]. intros _. apply IH.
Qed.

Lemma with_open_elsewhere {A} (path : str) (body : io A) (fs : filesystem) :
  (∀ fs', same_elsewhere path fs' (body fs').2) →
  same_elsewhere path fs (with_open path body fs).2.
Proof.
  intros Hbody. unfold with_open.
  pose proof (open_w_elsewhere path fs) as Ho.
  destruct (open_w path fs) as [[[]|e] fs1]; [|done].
  pose proof (Hbody fs1) as Hb. destruct (body fs1) as [r fs2].
  pose proof (close_elsewhere path fs2) as Hc.
  destruct (close path fs2) as [[[]|e] fs3]; simpl in *;
    (etrans; [exact Ho|]); (etrans; [exact Hb|]); exact Hc.
Qed.

Lemma except_OSError_state {A} (m : io A) (fs : filesystem) :
  (except_OSError m fs).2 = (m fs).2.
Proof. unfold except_OSError. by destruct (m fs) as [[a|[]] fs']. Qed.

(** Writing to [path] changes nothing else. *)
Lemma write_rules_same_elsewhere (now : datetime) (rules : pyobj) (path : str)
    (fs : filesystem) :
  same_elsewhere path fs (write_rules_to_file now rules (PyStr path) fs).2.
Proof.
  destruct path as [|c path]; [done|].
  assert (H : ∀ rules', same_elsewhere (c :: path) fs
    ((total_rules ← lift (py_len rules');
      let header_lines := header_lines (strftime_iso_z now) total_rules in
      except_OSError (
        with_open (c :: path) (
          for_each header_lines (fun line => write (c :: path) (line ++ [10]));;
          items ← lift (py_iter rules');
          for_each items (fun rule =>
            text ← lift (add_newline rule);
            write (c :: path) text)))) fs).2).
  { intros rules'. apply bind_elsewhere; [done|]. intros n fs1. cbv zeta.
    unfold same_elsewhere. rewrite except_OSError_state.
    apply with_open_elsewhere. intros fs2.
    apply bind_elsewhere.
    { apply for_each_elsewhere. intros. apply write_elsewhere. }
    intros _ fs3. apply bind_elsewhere; [done|]. intros items fs4.
    apply for_each_elsewhere. intros rule fs5.
    apply bind_elsewhere; [done|]. intros. apply write_elsewhere. }
  unfold write_rules_to_file.
  destruct rules as [|z|r|items]; [done|apply H..].
Qed.

(** X18. The writer changes no file but the one at the output path, and
    no permission, whatever its arguments and however it ends. *)
Theorem write_rules_touches_output_only (now : datetime)
    (rules output_path : pyobj) (fs : filesystem) (p : str) :
  output_path ≠ PyStr p →
  files (write_rules_to_file now rules output_path fs).2 !! p = files fs !! p
  ∧ writable (write_rules_to_file now rules output_path fs).2 = writable fs.
Proof.
  intros Hp. destruct output_path as [|z|path|items]; try done.
  destruct (write_rules_same_elsewhere now rules path fs) as [W F].
  split; [|done]. apply F. congruence.
Qed.

(** X19. When the system refuses to open the output path for writing
    (the path holds no NUL character and can be encoded, but is not
    writable), the writer raises [RuntimeError] and leaves the files as
    they are, whatever the list of rules holds. *)
Theorem write_rules_unwritable_path (now : datetime) (items : list pyobj)
    (path : str) (fs : filesystem) :
  path ≠ [] → has_nul path = false → open_error fs path = None →
  writable fs path = false →
  write_rules_to_file now (PyList items) (PyStr path) fs
  = (Raise RuntimeError, fs).
Proof.
  intros Hp Hnul Hopen Hw. destruct path as [|c p]; [done|].
  unfold write_rules_to_file.
  unfold mbind at 1, io_bind at 1, lift at 1, py_len.
  unfold except_OSError, with_open, open_w. by rewrite Hnul, Hopen, Hw.
Qed.

Lemma for_each_rules_stops (good : list str) (bad : pyobj) (rest : list pyobj)
    (path c : str) (fs : filesystem) :
  (∀ content, device fs path content = Stored) →
  Forall (fun rule => encodable rule = true) good →
  (∀ s, bad ≠ PyStr s) →
  for_each ((PyStr <$> good) ++ bad :: rest)
    (fun rule => text ← lift (add_newline rule); write path text)
    (set_file path c fs)
  = (Raise TypeError,
     set_file path (c ++ concat ((fun rule => rule ++ [10]) <$> good)) fs).
Proof.
  intros Hd Hgood Hbad. revert c.
  induction Hgood as [|r good Hr _ IH]; intros c.
  - cbn [fmap list_fmap app for_each concat]. rewrite app_nil_r.
    unfold mbind, io_bind, lift.
    destruct bad as [| |s|]; try done. by destruct (Hbad s).
  - cbn [fmap list_fmap app concat]. rewrite for_each_rule_cons.
    unfold mbind at 1, io_bind at 1.
    rewrite (proj2 (write_ok_iff path (r ++ [10]) (set_file path c fs)
                      (set_file path (c ++ (r ++ [10])) fs))).
    + rewrite IH. by rewrite <- !app_assoc.
    + rewrite content_of_set_file, encodable_app, Hr. split; [done|].
      split; [apply Hd|]. by rewrite set_file_set_file.
Qed.

(** X20. A rule that is not a string stops the writer with [TypeError]
    after the file has been opened: when the rules before it can be
    encoded and the system takes the writes, the file is left with the
    header, which counts all the rules, and the rules before the
    offending one. *)
Theorem write_rules_non_string_rule (now : datetime) (good : list str)
    (bad : pyobj) (rest : list pyobj) (path : str) (fs : filesystem) :
  path ≠ [] → can_store fs path →
  Forall (fun rule => encodable rule = true) good →
  (∀ s, bad ≠ PyStr s) →
  write_rules_to_file now (PyList ((PyStr <$> good) ++ bad :: rest))
    (PyStr path) fs
  = (Raise TypeError,
     set_file path
       (concat ((fun line => line ++ [10])
                  <$> header_of now (length good + 1 + length rest))
        ++ concat ((fun rule => rule ++ [10]) <$> good))
       fs).
Proof.
  intros Hp (Hnul & Hopen & Hw & Hdev & Hclose) Hgood Hbad.
  destruct path as [|c p]; [done|]. unfold write_rules_to_file.
  unfold mbind at 1, io_bind at 1, lift at 1, py_len.
  unfold except_OSError, with_open, open_w. rewrite Hnul, Hopen, Hw.
  unfold mbind at 1, io_bind at 1.
  rewrite (for_each_write _ _ _ [] fs Hdev (header_encodable now _)).
  unfold mbind at 1, io_bind at 1, lift at 1, py_iter.
  rewrite for_each_rules_stops by done.
  unfold close. cbn [closing set_file]. rewrite Hclose. f_equal. f_equal.
  unfold header_of, header_lines. cbn [app].
  rewrite length_app, length_fmap. cbn [length].
  by replace (length good + S (length rest))%nat
    with (length good + 1 + length rest)%nat by lia.
Qed.

(** ** Reading the output back *)

Lemma digits_no_line_boundary (s : str) :
  forallb is_digit s = true → no_line_boundary s = true.
Proof.
  unfold no_line_boundary. rewrite !forallb_forall. intros H c Hc.
  specialize (H c Hc). unfold is_digit in H.
  apply andb_true_iff in H as [H1%N.leb_le H2%N.leb_le].
  unfold is_line_boundary. rewrite negb_true_iff, !orb_false_iff,
    !andb_false_iff, !N.eqb_neq, !N.leb_gt. lia.
Qed.

Lemma no_line_boundary_app (a b : str) :
  no_line_boundary (a ++ b) = no_line_boundary a && no_line_boundary b.
Proof. apply forallb_app. Qed.

Lemma header_no_line_boundary (now : datetime) (total_rules : nat) :
  Forall (fun l => no_line_boundary l = true) (header_of now total_rules).
Proof.
  unfold header_of, strftime_iso_z, str_of_N. repeat constructor.
  - rewrite !no_line_boundary_app.
    rewrite !(digits_no_line_boundary _ (zero_pad_digits _ _)).
    by rewrite (digits_no_line_boundary _ (uint_digits_are_digits _)).
  - rewrite no_line_boundary_app.
    by rewrite (digits_no_line_boundary _ (uint_digits_are_digits _)).
Qed.

Lemma expected_file_lines (now : datetime) (rules : list str) :
  expected_file now rules
  = concat ((fun l => l ++ [10]) <$> header_of now (length rules) ++ rules).
Proof.
  unfold expected_file, header_of. rewrite fmap_app, concat_app.
  cbn [fmap list_fmap concat]. repeat (rewrite <- ?app_assoc; cbn [app]).
  reflexivity.
Qed.

Lemma expected_file_splitlines (now : datetime) (rules : list str) :
  Forall (fun l => no_line_boundary l = true) rules →
  splitlines (expected_file now rules) = header_of now (length rules) ++ rules.
Proof.
  intros H. rewrite expected_file_lines.
  pose proof (header_no_line_boundary now (length rules)) as Hh.
  assert (Hall : Forall (fun l => no_line_boundary l = true)
                   (header_of now (length rules) ++ rules))
    by by apply Forall_app.
  unfold splitlines. revert Hall.
  generalize (header_of now (length rules) ++ rules) as ls.
  induction 1 as [|l ls Hl _ IH].
  - done.
  - cbn [fmap list_fmap concat]. rewrite <- app_assoc. cbn [app].
    rewrite splitlines_from_line_feed by done. by rewrite IH.
Qed.

(** X22. When the writer returns, the file it wrote has one line for
    each line of the header and each rule: split into lines, it is the
    four header lines followed by the rules, provided no rule holds a
    line boundary. *)
Theorem written_file_lines (now : datetime) (rules : list str) (path : str)
    (fs fs' : filesystem) :
  write_rules_to_file now (PyList (PyStr <$> rules)) (PyStr path) fs
  = (Ok (), fs') →
  Forall (fun l => no_line_boundary l = true) rules →
  ∃ file,
    files fs' !! path = Some file
    ∧ splitlines file
      = [ lit "# Updated time: " ++ strftime_iso_z now;
          lit "# Total rules: " ++ str_of_N (N.of_nat (length rules));
          lit "# Thanks: adrules.top and whatshub.top";
          [] ] ++ rules.
Proof.
  intros [Hfile _]%write_rules_ok_inv Hrules. eexists. split; [exact Hfile|].
  by apply expected_file_splitlines.
Qed.

Lemma hash_line_discarded (t : str) :
  is_comment_or_empty (Some (35 :: t)) = true.
Proof.
  unfold is_comment_or_empty, strip.
  rewrite lstrip_nonspace, rstrip_cons_nonspace by done.
  cbn [py_not]. change (lit "#") with [35]. cbn [startswith].
  by rewrite N.eqb_refl.
Qed.

Lemma header_lines_discarded (now : datetime) (total_rules : nat) (l : str) :
  l ∈ header_of now total_rules → is_comment_or_empty (Some l) = true.
Proof.
  unfold header_of. rewrite !elem_of_cons, elem_of_nil.
  intros [-> |[-> |[-> |[-> |[]]]]]; try apply hash_line_discarded. done.
Qed.

Lemma retained_rule_app (a b : list pyobj) (r : str) :
  retained_rule (a ++ b) r ↔ retained_rule a r ∨ retained_rule b r.
Proof.
  unfold retained_rule. split.
  - intros (line & [?|?]%elem_of_app & ?); [left|right]; by exists line.
  - intros [(line & ? & ?)|(line & ? & ?)]; exists line;
      rewrite elem_of_app; auto.
Qed.

Lemma rule_of_singleton (source_lines : list pyobj) (r : str) :
  rule_of [PyList source_lines] r ↔ retained_rule source_lines r.
Proof.
  rewrite rule_of_cons. split.
  - by intros [(src & [= <-] & ?)|(? & []%elem_of_nil & _)].
  - intros H. left. by exists source_lines.
Qed.

Lemma header_has_no_rule (now : datetime) (total_rules : nat) (r : str) :
  ¬ retained_rule (PyStr <$> header_of now total_rules) r.
Proof.
  intros (line & Hin & Hc & _).
  apply list_elem_of_fmap in Hin as (l & Hl & Hin).
  assert (l = line) as -> by congruence.
  by rewrite (header_lines_discarded _ _ _ Hin) in Hc.
Qed.

(** The output file of [rules], as a source, has the rules of [rules]. *)
Lemma written_file_rules (now : datetime) (sources : list pyobj)
    (rules : list str) (r : str) :
  merge_and_deduplicate_rules (PyList sources) = Ok rules →
  Forall (fun l => no_line_boundary l = true) rules →
  rule_of [PyList (PyStr <$> splitlines (expected_file now rules))] r
  ↔ rule_of sources r.
Proof.
  intros Hm Hclean. rewrite expected_file_splitlines by done.
  rewrite rule_of_singleton, fmap_app, retained_rule_app.
  pose proof (rule_of_output _ _ r Hm) as Hout.
  pose proof (header_has_no_rule now (length rules) r) as Hh.
  apply merge_characterized in Hm as (_ & _ & Hel). rewrite <- Hel, <- Hout.
  tauto.
Qed.

Lemma expected_file_merges_back (now : datetime) (sources : list pyobj)
    (rules : list str) :
  merge_and_deduplicate_rules (PyList sources) = Ok rules →
  Forall (fun l => no_line_boundary l = true) rules →
  merge_and_deduplicate_rules
    (PyList [PyList (PyStr <$> splitlines (expected_file now rules))])
  = Ok rules.
Proof.
  intros Hm Hclean. rewrite merge_nonempty by done. f_equal.
  apply (merge_same_rules
           [PyList (PyStr <$> splitlines (expected_file now rules))] sources);
    [by apply merge_nonempty|done|].
  intros r. by apply written_file_rules.
Qed.

(** X23. Reading the output back: when the writer returns for the
    output of a merge, the file it wrote, split into lines and merged
    as the only source, gives the same rules again, provided no rule
    holds a line boundary. *)
Theorem written_file_merges_to_same_rules (now : datetime)
    (sources : list pyobj) (rules : list str) (path : str)
    (fs fs' : filesystem) :
  merge_and_deduplicate_rules (PyList sources) = Ok rules →
  Forall (fun l => no_line_boundary l = true) rules →
  write_rules_to_file now (PyList (PyStr <$> rules)) (PyStr path) fs
  = (Ok (), fs') →
  ∃ file,
    files fs' !! path = Some file
    ∧ merge_and_deduplicate_rules (PyList [PyList (PyStr <$> splitlines file)])
      = Ok rules.
Proof.
  intros Hm Hclean [Hfile _]%write_rules_ok_inv.
  eexists. split; [exact Hfile|].
  by apply (expected_file_merges_back now sources).
Qed.

(** ** The entry point *)

Lemma OUTPUT_FILE_nonempty : OUTPUT_FILE ≠ [].
Proof. intros E. vm_compute in E. discriminate. Qed.

Lemma fetch_sources_ok (request_ok : str → bool)
    (urlopen : str → http_outcome) (urls : list str)
    (ls : list (list str)) (acc : list pyobj) :
  Forall2 (fun u l => fetch_lines_from_url request_ok urlopen (PyStr u) = Ok l) urls ls →
  fetch_sources request_ok urlopen urls acc
  = inr (acc ++ ((fun l => PyList (PyStr <$> l)) <$> ls)).
Proof.
  intros H. revert acc. induction H as [|u l urls ls Hu _ IH]; intros acc.
  - simpl. by rewrite app_nil_r.
  - cbn [fetch_sources]. rewrite Hu, IH. cbn [fmap list_fmap].
    by rewrite <- app_assoc.
Qed.

Lemma fetch_sources_inr_inv (request_ok : str → bool)
    (urlopen : str → http_outcome) (urls : list str)
    (acc all : list pyobj) :
  fetch_sources request_ok urlopen urls acc = inr all →
  ∃ ls,
    Forall2 (fun u l => fetch_lines_from_url request_ok urlopen (PyStr u) = Ok l) urls ls
    ∧ all = acc ++ ((fun l => PyList (PyStr <$> l)) <$> ls).
Proof.
  revert acc. induction urls as [|u urls IH]; intros acc.
  - intros [= <-]. exists []. split; [constructor|]. by rewrite app_nil_r.
  - cbn [fetch_sources].
    destruct (fetch_lines_from_url request_ok urlopen (PyStr u)) as [l|e] eqn:Hu; [|done].
    intros (ls & Hls & ->)%IH. exists (l :: ls). split; [by constructor|].
    cbn [fmap list_fmap]. by rewrite <- app_assoc.
Qed.

Lemma fetch_sources_fails (request_ok : str → bool)
    (urlopen : str → http_outcome)
    (before : list str) (u : str) (after : list str) (acc : list pyobj) :
  Forall (fun v => ∃ l, fetch_lines_from_url request_ok urlopen (PyStr v) = Ok l) before →
  (∃ e, fetch_lines_from_url request_ok urlopen (PyStr u) = Raise e) →
  fetch_sources request_ok urlopen (before ++ u :: after) acc = inl (FetchFailed u).
Proof.
  intros Hb [e He]. revert acc.
  induction Hb as [|v before [l Hv] _ IH]; intros acc.
  - cbn [app fetch_sources]. by rewrite He.
  - cbn [app fetch_sources]. by rewrite Hv.
Qed.

Lemma fetch_sources_inl_inv (request_ok : str → bool)
    (urlopen : str → http_outcome) (urls : list str)
    (acc : list pyobj) (message : diagnostic) :
  fetch_sources request_ok urlopen urls acc = inl message →
  ∃ before u after,
    urls = before ++ u :: after ∧ message = FetchFailed u
    ∧ Forall (fun v => ∃ l, fetch_lines_from_url request_ok urlopen (PyStr v) = Ok l) before
    ∧ ∃ e, fetch_lines_from_url request_ok urlopen (PyStr u) = Raise e.
Proof.
  revert acc. induction urls as [|u urls IH]; intros acc; [done|].
  cbn [fetch_sources].
  destruct (fetch_lines_from_url request_ok urlopen (PyStr u)) as [l|e] eqn:Hu.
  - intros (before & v & after & -> & -> & Hb & He)%IH.
    exists (u :: before), v, after. split; [done|]. split; [done|].
    split; [|done]. constructor; [by exists l|done].
  - intros [= <-]. exists [], u, urls. split; [done|]. split; [done|].
    split; [constructor|by exists e].
Qed.

(** What [main] does once every fetch has returned. *)
Lemma main_after_fetch (request_ok : str → bool)
    (urlopen : str → http_outcome) (now : datetime)
    (fs : filesystem) (all : list pyobj) :
  fetch_sources request_ok urlopen RULE_URLS [] = inr all →
  all ≠ []
  ∧ ∃ merged,
      merge_and_deduplicate_rules (PyList all) = Ok merged
      ∧ main request_ok urlopen now fs
        = match write_rules_to_file now (PyList (PyStr <$> merged))
                  (PyStr OUTPUT_FILE) fs with
          | (Raise _, fs') => (Exit1 WriteFailed, fs')
          | (Ok _, fs') => (Done, fs')
          end.
Proof.
  intros Hf. assert (Hne : all ≠ []).
  { apply fetch_sources_inr_inv in Hf as (ls & Hls & ->).
    apply Forall2_length in Hls. destruct ls; [done|done]. }
  split; [done|]. eexists. split; [by apply merge_nonempty|].
  unfold main. by rewrite Hf, merge_nonempty by done.
Qed.

(** X24. [main] never reports a failure of the merge stage: the list of
    sources it builds is never empty. *)
Theorem main_never_reports_merge_failure (request_ok : str → bool)
    (urlopen : str → http_outcome)
    (now : datetime) (fs : filesystem) :
  (main request_ok urlopen now fs).1 ≠ Exit1 MergeFailed.
Proof.
  destruct (fetch_sources request_ok urlopen RULE_URLS []) as [message|all] eqn:Hf.
  - unfold main. rewrite Hf.
    by apply fetch_sources_inl_inv in Hf as (? & u & ? & _ & -> & _).
  - destruct (main_after_fetch request_ok urlopen now fs all Hf)
      as (_ & merged & _ & ->).
    by destruct (write_rules_to_file _ _ _ fs) as [[[]|e] fs'].
Qed.

(** X25. [main] stops at the first URL whose fetch raises: it reports
    that URL, exits with status 1 and leaves the files as they are. *)
Theorem main_stops_at_first_failed_fetch (request_ok : str → bool)
    (urlopen : str → http_outcome)
    (now : datetime) (fs : filesystem)
    (before : list str) (u : str) (after : list str) :
  RULE_URLS = before ++ u :: after →
  Forall (fun v => ∃ l, fetch_lines_from_url request_ok urlopen (PyStr v) = Ok l) before →
  (∃ e, fetch_lines_from_url request_ok urlopen (PyStr u) = Raise e) →
  main request_ok urlopen now fs = (Exit1 (FetchFailed u), fs)
  ∧ exit_status (main request_ok urlopen now fs).1 = 1%Z.
Proof.
  intros E Hb He. unfold main. rewrite E.
  by rewrite (fetch_sources_fails request_ok urlopen before u after [] Hb He).
Qed.

Lemma splitlines_from_forallb (P : N → bool) (text line : str) :
  forallb P line = true → forallb P text = true →
  Forall (fun l => forallb P l = true) (splitlines_from line text).
Proof.
  remember (length text) as n eqn:Hn. revert text line Hn.
  induction n as [n IH] using lt_wf_ind. intros [|c text] line -> Hline Htext.
  - simpl. destruct line; repeat constructor. done.
  - cbn [forallb] in Htext. apply andb_true_iff in Htext as [Hc Htext].
    cbn [splitlines_from]. destruct (c =? 13).
    + destruct text as [|c' text]; [by repeat constructor|].
      destruct (c' =? 10); constructor; try done.
      * cbn [forallb] in Htext. apply andb_true_iff in Htext as [_ Htext].
        apply (IH (length text)); [simpl; lia|done..].
      * apply (IH (length (c' :: text))); [simpl; lia|done..].
    + destruct (is_line_boundary c).
      * constructor; [done|]. apply (IH (length text)); [simpl; lia|done..].
      * apply (IH (length text)); [simpl; lia|done| |done].
        rewrite forallb_app, Hline. simpl. by rewrite Hc.
Qed.

Lemma strip_forallb (P : N → bool) (line : str) :
  forallb P line = true → forallb P (strip line) = true.
Proof.
  destruct (lstrip_split line) as (ws1 & E1 & _).
  destruct (rstrip_split (lstrip line)) as (ws2 & E2 & _).
  intros H. rewrite E1, E2 in H. fold (strip line) in H.
  rewrite !forallb_app in H.
  by apply andb_true_iff in H as [_ [? _]%andb_true_iff].
Qed.

Lemma decode_loop_scalar (b : byte) (raw : list byte) :
  forallb is_scalar_value (decode_loop ENCODINGS (b :: raw) []) = true.
Proof.
  rewrite (proj1 (decode_loop_nonempty_body b raw)).
  destruct (decode_utf8 (b :: raw)) as [text|] eqn:Eu; cbn [default].
  - by apply decode_utf8_scalar in Eu.
  - apply forallb_forall. intros c' Hc.
    apply list_elem_of_In, list_elem_of_fmap in Hc as (b' & -> & _).
    pose proof (Byte.to_N_bounded b'). unfold is_scalar_value.
    apply orb_true_iff. left. apply N.ltb_lt. lia.
Qed.

(** A property of characters that the fetched lines have is one the
    merged rules have. *)
Lemma fetched_rules_forallb (P : N → bool) (request_ok : str → bool)
    (urlopen : str → http_outcome) (urls : list str) (all : list pyobj)
    (merged : list str) :
  (∀ u lines, fetch_lines_from_url request_ok urlopen (PyStr u) = Ok lines →
              Forall (fun l => forallb P l = true) lines) →
  fetch_sources request_ok urlopen urls [] = inr all →
  merge_and_deduplicate_rules (PyList all) = Ok merged →
  Forall (fun l => forallb P l = true) merged.
Proof.
  intros HP (ls & Hls & ->)%fetch_sources_inr_inv
    (_ & _ & Hel)%merge_characterized.
  apply Forall_forall. intros r (src & Hsrc & line & Hline & _ & ->)%Hel.
  apply strip_forallb. cbn [app] in Hsrc.
  apply list_elem_of_fmap in Hsrc as (l & [= ->] & Hl).
  apply list_elem_of_fmap in Hline as (line' & [= <-] & Hline).
  apply list_elem_of_lookup in Hl as [i Hi].
  destruct (Forall2_lookup_r _ _ _ _ _ Hls Hi) as (u & _ & Hu).
  pose proof (HP _ _ Hu) as Hall. rewrite Forall_forall in Hall.
  by apply Hall.
Qed.

(** The rules [main] merges hold no line boundary. *)
Lemma fetched_rules_no_line_boundary (request_ok : str → bool)
    (urlopen : str → http_outcome) (urls : list str) (all : list pyobj)
    (merged : list str) :
  fetch_sources request_ok urlopen urls [] = inr all →
  merge_and_deduplicate_rules (PyList all) = Ok merged →
  Forall (fun l => no_line_boundary l = true) merged.
Proof.
  apply (fetched_rules_forallb (fun c => negb (is_line_boundary c))).
  intros u lines (_ & _ & status & b & raw & _ & _ & ->)%fetch_lines_ok.
  by apply splitlines_from_no_boundary.
Qed.

(** The rules [main] merges can be encoded. *)
Lemma fetched_rules_encodable (request_ok : str → bool)
    (urlopen : str → http_outcome) (urls : list str) (all : list pyobj)
    (merged : list str) :
  fetch_sources request_ok urlopen urls [] = inr all →
  merge_and_deduplicate_rules (PyList all) = Ok merged →
  Forall (fun rule => encodable rule = true) merged.
Proof.
  apply (fetched_rules_forallb is_scalar_value).
  intros u lines (_ & _ & status & b & raw & _ & _ & ->)%fetch_lines_ok.
  apply splitlines_from_forallb; [done|apply decode_loop_scalar].
Qed.

(** X26. When the two fetches return and the system opens the output
    file and takes every write to it and its close, [main] ends
    normally and the output file holds the header and the merged rules
    of the two lists. *)
Theorem main_writes_merged_rules (request_ok : str → bool)
    (urlopen : str → http_outcome)
    (now : datetime) (fs : filesystem) (lines1 lines2 : list str) :
  fetch_lines_from_url request_ok urlopen
    (PyStr (lit "https://adrules.top/adrules-surge.conf")) = Ok lines1 →
  fetch_lines_from_url request_ok urlopen
    (PyStr (lit "https://whatshub.top/rule/AntiAD.list")) = Ok lines2 →
  can_store fs (lit "FuckAD.conf") →
  ∃ merged,
    merge_and_deduplicate_rules
      (PyList [PyList (PyStr <$> lines1); PyList (PyStr <$> lines2)])
    = Ok merged
    ∧ main request_ok urlopen now fs
      = (Done, set_file (lit "FuckAD.conf") (expected_file now merged) fs).
Proof.
  intros H1 H2 Hs.
  assert (Hf : fetch_sources request_ok urlopen RULE_URLS []
               = inr [PyList (PyStr <$> lines1); PyList (PyStr <$> lines2)]).
  { by rewrite (fetch_sources_ok request_ok urlopen RULE_URLS [lines1; lines2])
      by (by repeat constructor). }
  destruct (main_after_fetch request_ok urlopen now fs _ Hf)
    as (_ & merged & Hm & ->).
  exists merged. split; [done|].
  pose proof (fetched_rules_encodable _ _ _ _ _ Hf Hm) as Henc.
  by rewrite (write_rules_ok now merged OUTPUT_FILE fs OUTPUT_FILE_nonempty Hs Henc).
Qed.

(** X27. [main] ends with status 0 only when every fetch has returned
    and the output file has been opened for writing. *)
Theorem main_exit_status_zero_only_if (request_ok : str → bool)
    (urlopen : str → http_outcome)
    (now : datetime) (fs : filesystem) :
  exit_status (main request_ok urlopen now fs).1 = 0%Z →
  Forall (fun u => ∃ l, fetch_lines_from_url request_ok urlopen (PyStr u) = Ok l)
    RULE_URLS
  ∧ open_error fs OUTPUT_FILE = None
  ∧ writable fs OUTPUT_FILE = true.
Proof.
  destruct (fetch_sources request_ok urlopen RULE_URLS []) as [message|all] eqn:Hf.
  { unfold main at 1. by rewrite Hf. }
  destruct (main_after_fetch request_ok urlopen now fs all Hf)
    as (_ & merged & _ & ->).
  apply fetch_sources_inr_inv in Hf as (ls & Hls & _).
  assert (Hall : Forall (fun u => ∃ l,
             fetch_lines_from_url request_ok urlopen (PyStr u) = Ok l) RULE_URLS).
  { clear -Hls. induction Hls; constructor; eauto. }
  destruct (write_rules_to_file _ _ _ fs) as [[[]|e] fs'] eqn:Hw; [|done].
  intros _. by apply write_rules_ok_inv in Hw as (_ & _ & ? & ?).
Qed.

(** X28. Whatever happens, [main] changes no file but the output file
    and no permission. *)
Theorem main_touches_output_file_only (request_ok : str → bool)
    (urlopen : str → http_outcome)
    (now : datetime) (fs : filesystem) (p : str) :
  p ≠ OUTPUT_FILE →
  files (main request_ok urlopen now fs).2 !! p = files fs !! p
  ∧ writable (main request_ok urlopen now fs).2 = writable fs.
Proof.
  intros Hp. unfold main.
  destruct (fetch_sources request_ok urlopen RULE_URLS []) as [message|all];
    [done|].
  destruct (merge_and_deduplicate_rules (PyList all)) as [merged|e]; [|done].
  destruct (write_rules_same_elsewhere now (PyList (PyStr <$> merged))
              OUTPUT_FILE fs) as [W F].
  destruct (write_rules_to_file _ _ _ fs) as [[[]|e] fs']; simpl in *; auto.
Qed.

(** X29. The file [main] writes reads back to itself: split into lines
    and merged as the only source, it gives the rules it lists, so a
    file written for them is the same but for the time stamp. *)
Theorem main_output_reads_back (request_ok : str → bool)
    (urlopen : str → http_outcome)
    (now : datetime) (fs fs' : filesystem) :
  main request_ok urlopen now fs = (Done, fs') →
  ∃ merged,
    files fs' !! OUTPUT_FILE = Some (expected_file now merged)
    ∧ merge_and_deduplicate_rules
        (PyList [PyList (PyStr <$> splitlines (expected_file now merged))])
      = Ok merged.
Proof.
  destruct (fetch_sources request_ok urlopen RULE_URLS []) as [message|all] eqn:Hf.
  { unfold main. by rewrite Hf. }
  destruct (main_after_fetch request_ok urlopen now fs all Hf)
    as (_ & merged & Hm & ->).
  destruct (write_rules_to_file _ _ _ fs) as [[[]|e] fs1] eqn:Hw; [|done].
  intros [= <-]. apply write_rules_ok_inv in Hw as (Hfile & _).
  exists merged. split; [done|].
  pose proof (fetched_rules_no_line_boundary _ _ _ _ _ Hf Hm) as Hclean.
  by apply (expected_file_merges_back now all).
Qed.

End Pipeline.

(** * Runs on concrete inputs *)

Example classifier_keeps_rule :
  is_comment_or_empty unicode_lower_fragment (Some (lit "  ||ads.example^")) = false.
Proof. vm_compute. reflexivity. Qed.

Example classifier_drops_header :
  is_comment_or_empty unicode_lower_fragment (Some (lit " [Adblock Plus 2.0]")) = true.
Proof. vm_compute. reflexivity. Qed.

(** The Kelvin sign U+212A is lowered to [k]. *)
Example classifier_drops_kelvin_header :
  is_comment_or_empty unicode_lower_fragment (Some (lit "[adbloc" ++ [8490])) = true.
Proof. vm_compute. reflexivity. Qed.

(** The ideographic space U+3000 is trimmed. *)
Example strip_ideographic_space :
  strip ([12288] ++ lit "rule" ++ [12288; 32]) = lit "rule".
Proof. vm_compute. reflexivity. Qed.

Example merge_mixed_sources :
  merge_and_deduplicate_rules unicode_lower_fragment (PyList mixed_sources)
  = Ok [lit "||ads.example^"].
Proof. vm_compute. reflexivity. Qed.

Example merge_only_non_lists :
  merge_and_deduplicate_rules unicode_lower_fragment (PyList [PyNone; PyInt 1])
  = Ok [].
Proof. vm_compute. reflexivity. Qed.

Example merge_sorts_by_code_point :
  merge_and_deduplicate_rules unicode_lower_fragment
    (PyList [PyList [PyStr (lit "b"); PyStr (lit "a"); PyStr (lit "B");
                     PyStr (lit "ab"); PyStr (lit "a ")]])
  = Ok [lit "B"; lit "a"; lit "ab"; lit "b"].
Proof. vm_compute. reflexivity. Qed.

Example decode_utf8_two_bytes :
  fetch_decode (Some [x61; xc3; xa9]) = Ok [97; 233].
Proof. vm_compute. reflexivity. Qed.

(** A truncated sequence is not UTF-8; latin-1 takes over. *)
Example decode_falls_back_to_latin1 :
  fetch_decode (Some [x61; xc3]) = Ok [97; 195].
Proof. vm_compute. reflexivity. Qed.

(** UTF-8 accepts a byte order mark as U+FEFF, so the loop stops there. *)
Example decode_keeps_byte_order_mark :
  fetch_decode (Some [xef; xbb; xbf; x61]) = Ok [65279; 97].
Proof. vm_compute. reflexivity. Qed.

Example write_two_rules :
  let r := write_rules_to_file sample_time
             (PyList [PyStr (lit "a"); PyStr (lit "b")]) (PyStr (lit "FuckAD.conf"))
             empty_disk in
  r.1 = Ok ()
  ∧ files r.2 !! lit "FuckAD.conf"
    = Some (lit "# Updated time: 2024-03-07T09:05:00Z" ++ [10]
            ++ lit "# Total rules: 2" ++ [10]
            ++ lit "# Thanks: adrules.top and whatshub.top" ++ [10]
            ++ [10] ++ lit "a" ++ [10] ++ lit "b" ++ [10]).
Proof. vm_compute. split; reflexivity. Qed.

(** A rule that is not a string stops the loop with [TypeError]; the
    header, which counts it, and the rules before it are in the file. *)
Example write_non_string_rule :
  let r := write_rules_to_file sample_time
             (PyList [PyStr (lit "a"); PyInt 1; PyStr (lit "b")])
             (PyStr (lit "out")) empty_disk in
  r.1 = Raise TypeError
  ∧ files r.2 !! lit "out"
    = Some (lit "# Updated time: 2024-03-07T09:05:00Z" ++ [10]
            ++ lit "# Total rules: 3" ++ [10]
            ++ lit "# Thanks: adrules.top and whatshub.top" ++ [10]
            ++ [10] ++ lit "a" ++ [10]).
Proof. vm_compute. split; reflexivity. Qed.

(** A URL without a scheme: [Request] raises [ValueError] before the
    network is asked. *)
Example fetch_url_without_scheme :
  fetch_lines_from_url sample_request_ok sample_urlopen (PyStr (lit "abc"))
  = Raise ValueError.
Proof. vm_compute. reflexivity. Qed.

(** A path with a NUL character: [ValueError], which the writer does
    not turn into [RuntimeError]. *)
Example write_to_path_with_nul :
  write_rules_to_file sample_time (PyList []) (PyStr (lit "a" ++ [0] ++ lit "b"))
    empty_disk
  = (Raise ValueError, empty_disk).
Proof. vm_compute. reflexivity. Qed.

(** A disk that fills up after the header: [RuntimeError], and the
    file holds what the device kept. *)
Example write_to_full_disk :
  let r := write_rules_to_file sample_time
             (PyList [PyStr (lit "a"); PyStr (lit "b")]) (PyStr (lit "out"))
             full_disk in
  r.1 = Raise RuntimeError
  ∧ length <$> files r.2 !! lit "out" = Some 94%nat.
Proof. vm_compute. split; reflexivity. Qed.

(** Before the year 1000 the time stamp has fewer than four digits for
    the year. *)
Example time_stamp_of_year_5 :
  strftime_iso_z {| year := 5; month := 1; day := 2;
                    hour := 3; minute := 4; second := 6 |}
  = lit "5-01-02T03:04:06Z".
Proof. vm_compute. reflexivity. Qed.


Lemma merge_idempotent_witness :
  scenario_sources ≠ []
  ∧ ∃ rules,
      merge_and_deduplicate_rules unicode_lower_fragment (PyList scenario_sources)
      = Ok rules
      ∧ merge_and_deduplicate_rules unicode_lower_fragment
          (PyList [PyList (PyStr <$> rules)])
        = Ok rules.
Proof.
  split; [discriminate|].
  apply (merge_idempotent unicode_lower_fragment scenario_sources).
  discriminate.
Defined.

Lemma scenario_is_reordered : reordered scenario_sources scenario_reordered.
Proof.
  exists [PyList [PyStr (lit "ruleB"); PyStr []; PyStr (lit "ruleA");
                  PyStr (lit "# comment")];
          PyList [PyStr (lit "ruleC"); PyStr (lit "; note"); PyStr (lit "ruleA")]].
  split.
  - repeat constructor.
    + apply (Permutation_sym (reverse_Permutation
               [PyStr (lit "# comment"); PyStr (lit "ruleA"); PyStr [];
                PyStr (lit "ruleB")])).
    + apply (Permutation_sym (reverse_Permutation
               [PyStr (lit "ruleA"); PyStr (lit "; note"); PyStr (lit "ruleC")])).
  - apply perm_swap.
Qed.

Lemma merge_order_independent_witness :
  reordered scenario_sources scenario_reordered
  ∧ merge_and_deduplicate_rules unicode_lower_fragment (PyList scenario_sources)
    = merge_and_deduplicate_rules unicode_lower_fragment (PyList scenario_reordered).
Proof.
  split; [apply scenario_is_reordered|].
  apply (merge_order_independent unicode_lower_fragment
           scenario_sources scenario_reordered).
  apply scenario_is_reordered.
Defined.

Lemma retained_line_normalizes_nonempty_witness :
  is_comment_or_empty unicode_lower_fragment (Some (lit "  ruleA ")) = false
  ∧ normalize_rule_line (Some (lit "  ruleA ")) ≠ []
  ∧ py_not (normalize_rule_line (Some (lit "  ruleA "))) = false
  ∧ ∀ st : merge_state,
      merge_line unicode_lower_fragment st (PyStr (lit "  ruleA ")) =
        if decide (strip (lit "  ruleA ") ∈ st.1) then st
        else ({[ strip (lit "  ruleA ") ]} ∪ st.1, st.2 ++ [strip (lit "  ruleA ")]).
Proof.
  split; [vm_compute; reflexivity|].
  apply (retained_line_normalizes_nonempty unicode_lower_fragment (lit "  ruleA ")).
  vm_compute; reflexivity.
Defined.

Lemma merge_skips_non_list_sources_witness :
  mixed_sources ≠ []
  ∧ (∃ rules, merge_and_deduplicate_rules unicode_lower_fragment
                (PyList mixed_sources) = Ok rules)
  ∧ (List.filter is_list mixed_sources ≠ [] →
       merge_and_deduplicate_rules unicode_lower_fragment (PyList mixed_sources)
       = merge_and_deduplicate_rules unicode_lower_fragment
           (PyList (List.filter is_list mixed_sources)))
  ∧ (List.filter is_list mixed_sources = [] →
       merge_and_deduplicate_rules unicode_lower_fragment (PyList mixed_sources)
       = Ok []).
Proof.
  split; [discriminate|].
  apply (merge_skips_non_list_sources unicode_lower_fragment mixed_sources).
  discriminate.
Defined.

(** ** Runs of the further properties *)

Lemma whitespace_padding_is_ignored_witness :
  forallb isspace (lit "  ") = true ∧ forallb isspace [9; 12288] = true
  ∧ is_comment_or_empty unicode_lower_fragment
      (Some (lit "  " ++ lit "# c" ++ [9; 12288]))
    = is_comment_or_empty unicode_lower_fragment (Some (lit "# c"))
  ∧ normalize_rule_line (Some (lit "  " ++ lit "# c" ++ [9; 12288]))
    = normalize_rule_line (Some (lit "# c")).
Proof.
  split; [reflexivity|]. split; [reflexivity|].
  apply (whitespace_padding_is_ignored unicode_lower_fragment
           (lit "  ") (lit "# c") [9; 12288]); reflexivity.
Defined.

Lemma merge_output_complete_witness :
  scenario_sources ≠ []
  ∧ ∃ rules,
      merge_and_deduplicate_rules unicode_lower_fragment (PyList scenario_sources)
      = Ok rules
      ∧ ∀ source_lines line,
          PyList source_lines ∈ scenario_sources → PyStr line ∈ source_lines →
          is_comment_or_empty unicode_lower_fragment (Some line) = false →
          normalize_rule_line (Some line) ∈ rules.
Proof.
  split; [discriminate|].
  apply (merge_output_complete unicode_lower_fragment scenario_sources).
  discriminate.
Defined.

Lemma scenario_padded_same_rules (r : str) :
  rule_of unicode_lower_fragment scenario_sources r
  ↔ rule_of unicode_lower_fragment scenario_padded r.
Proof.
  assert (Hx : merge_and_deduplicate_rules unicode_lower_fragment
                 (PyList scenario_sources)
               = Ok [lit "ruleA"; lit "ruleB"; lit "ruleC"])
    by (vm_compute; reflexivity).
  assert (Hy : merge_and_deduplicate_rules unicode_lower_fragment
                 (PyList scenario_padded)
               = Ok [lit "ruleA"; lit "ruleB"; lit "ruleC"])
    by (vm_compute; reflexivity).
  apply merge_characterized in Hx as (_ & _ & Hx).
  apply merge_characterized in Hy as (_ & _ & Hy).
  by rewrite <- Hx, <- Hy.
Qed.

Lemma merge_depends_on_rule_set_only_witness :
  scenario_sources ≠ [] ∧ scenario_padded ≠ []
  ∧ (∀ r, rule_of unicode_lower_fragment scenario_sources r
          ↔ rule_of unicode_lower_fragment scenario_padded r)
  ∧ merge_and_deduplicate_rules unicode_lower_fragment (PyList scenario_sources)
    = merge_and_deduplicate_rules unicode_lower_fragment (PyList scenario_padded).
Proof.
  split; [discriminate|]. split; [discriminate|].
  split; [apply scenario_padded_same_rules|].
  apply (merge_depends_on_rule_set_only unicode_lower_fragment
           scenario_sources scenario_padded);
    [discriminate|discriminate|apply scenario_padded_same_rules].
Defined.

Lemma merge_app_is_union_witness :
  scenario_sources ≠ [] ∧ mixed_sources ≠ []
  ∧ ∃ rx ry rxy,
      merge_and_deduplicate_rules unicode_lower_fragment (PyList scenario_sources)
      = Ok rx
      ∧ merge_and_deduplicate_rules unicode_lower_fragment (PyList mixed_sources)
        = Ok ry
      ∧ merge_and_deduplicate_rules unicode_lower_fragment
          (PyList (scenario_sources ++ mixed_sources))
        = Ok rxy
      ∧ ∀ r, r ∈ rxy ↔ r ∈ rx ∨ r ∈ ry.
Proof.
  split; [discriminate|]. split; [discriminate|].
  apply (merge_app_is_union unicode_lower_fragment scenario_sources mixed_sources);
    discriminate.
Defined.

Lemma merge_of_outputs_witness :
  scenario_sources ≠ [] ∧ mixed_sources ≠ []
  ∧ ∃ rx ry,
      merge_and_deduplicate_rules unicode_lower_fragment (PyList scenario_sources)
      = Ok rx
      ∧ merge_and_deduplicate_rules unicode_lower_fragment (PyList mixed_sources)
        = Ok ry
      ∧ merge_and_deduplicate_rules unicode_lower_fragment
          (PyList [PyList (PyStr <$> rx); PyList (PyStr <$> ry)])
        = merge_and_deduplicate_rules unicode_lower_fragment
            (PyList (scenario_sources ++ mixed_sources)).
Proof.
  split; [discriminate|]. split; [discriminate|].
  apply (merge_of_outputs unicode_lower_fragment scenario_sources mixed_sources);
    discriminate.
Defined.

Lemma fetch_decode_keeps_byte_order_mark_witness :
  decode_utf8 [x61; xc3; xa9] = Some [97; 233]
  ∧ fetch_decode (Some (xef :: xbb :: xbf :: [x61; xc3; xa9]))
    = Ok (65279 :: [97; 233]).
Proof.
  split; [reflexivity|].
  apply (fetch_decode_keeps_byte_order_mark [x61; xc3; xa9] [97; 233]).
  reflexivity.
Defined.

Lemma fetch_decode_scalar_values_witness :
  fetch_decode (Some [xf0; x9f; x98; x80; xff]) = Ok [240; 159; 152; 128; 255]
  ∧ forallb is_scalar_value [240; 159; 152; 128; 255] = true.
Proof.
  split; [reflexivity|].
  apply (fetch_decode_scalar_values (Some [xf0; x9f; x98; x80; xff])).
  reflexivity.
Defined.

Lemma splitlines_of_joined_lines_witness :
  Forall (fun l => no_line_boundary l = true) [lit "a"; []; lit "b c"]
  ∧ splitlines (concat ((fun l => l ++ [10]) <$> [lit "a"; []; lit "b c"]))
    = [lit "a"; []; lit "b c"].
Proof.
  assert (H : Forall (fun l => no_line_boundary l = true) [lit "a"; []; lit "b c"])
    by (repeat constructor).
  split; [exact H|]. apply (splitlines_of_joined_lines _ H).
Defined.

Lemma fetch_lines_result_shape_witness :
  fetch_lines_from_url sample_request_ok sample_urlopen
    (PyStr (lit "https://adrules.top/adrules-surge.conf"))
  = Ok [lit "! Title"; lit "||a.example^"; []; lit "||b.example^"]
  ∧ [lit "! Title"; lit "||a.example^"; []; lit "||b.example^"] ≠ []
  ∧ Forall (fun l => no_line_boundary l = true)
      [lit "! Title"; lit "||a.example^"; []; lit "||b.example^"].
Proof.
  split; [vm_compute; reflexivity|].
  apply (fetch_lines_result_shape sample_request_ok sample_urlopen
           (PyStr (lit "https://adrules.top/adrules-surge.conf"))).
  vm_compute; reflexivity.
Defined.

Lemma write_rules_touches_output_only_witness :
  PyStr (lit "out") ≠ PyStr (lit "other")
  ∧ files (write_rules_to_file sample_time (PyList [PyStr (lit "a")])
             (PyStr (lit "out")) empty_disk).2 !! lit "other"
    = files empty_disk !! lit "other"
  ∧ writable (write_rules_to_file sample_time (PyList [PyStr (lit "a")])
                (PyStr (lit "out")) empty_disk).2
    = writable empty_disk.
Proof.
  assert (H : PyStr (lit "out") ≠ PyStr (lit "other"))
    by (intros E; vm_compute in E; discriminate).
  split; [exact H|].
  apply (write_rules_touches_output_only sample_time (PyList [PyStr (lit "a")])
           (PyStr (lit "out")) empty_disk (lit "other") H).
Defined.

Lemma write_rules_unwritable_path_witness :
  lit "out" ≠ [] ∧ has_nul (lit "out") = false
  ∧ open_error read_only_disk (lit "out") = None
  ∧ writable read_only_disk (lit "out") = false
  ∧ write_rules_to_file sample_time (PyList [PyStr (lit "a"); PyInt 1])
      (PyStr (lit "out")) read_only_disk
    = (Raise RuntimeError, read_only_disk).
Proof.
  assert (H : lit "out" ≠ []) by (intros E; vm_compute in E; discriminate).
  split; [exact H|]. split; [reflexivity|]. split; [reflexivity|].
  split; [reflexivity|].
  apply (write_rules_unwritable_path sample_time [PyStr (lit "a"); PyInt 1]
           (lit "out") read_only_disk H); reflexivity.
Defined.

Lemma empty_disk_can_store (path : str) :
  has_nul path = false → can_store empty_disk path.
Proof. intros H. by repeat split. Qed.

Lemma out_nonempty : lit "out" ≠ [].
Proof. intros E. vm_compute in E. discriminate. Qed.

Lemma write_rules_non_string_rule_witness :
  lit "out" ≠ [] ∧ can_store empty_disk (lit "out")
  ∧ Forall (fun rule => encodable rule = true) [lit "a"]
  ∧ (∀ s, PyInt 1 ≠ PyStr s)
  ∧ write_rules_to_file sample_time
      (PyList ((PyStr <$> [lit "a"]) ++ PyInt 1 :: [PyStr (lit "b")]))
      (PyStr (lit "out")) empty_disk
    = (Raise TypeError,
       set_file (lit "out")
         (concat ((fun line => line ++ [10])
                    <$> header_of sample_time (length [lit "a"] + 1
                                               + length [PyStr (lit "b")]))
          ++ concat ((fun rule => rule ++ [10]) <$> [lit "a"]))
         empty_disk).
Proof.
  assert (H2 : can_store empty_disk (lit "out"))
    by (by apply empty_disk_can_store).
  assert (H3 : Forall (fun rule => encodable rule = true) [lit "a"])
    by (repeat constructor).
  split; [exact out_nonempty|]. split; [exact H2|]. split; [exact H3|].
  split; [discriminate|].
  apply (write_rules_non_string_rule sample_time [lit "a"] (PyInt 1)
           [PyStr (lit "b")] (lit "out") empty_disk out_nonempty H2 H3).
  discriminate.
Defined.

Lemma sample_time_valid : valid_datetime sample_time.
Proof. unfold valid_datetime. simpl. lia. Qed.

Lemma strftime_iso_z_shape_witness :
  1000 ≤ year sample_time ≤ 9999 ∧ 1 ≤ month sample_time ≤ 12
  ∧ 1 ≤ day sample_time ≤ 31 ∧ hour sample_time ≤ 23
  ∧ minute sample_time ≤ 59 ∧ second sample_time ≤ 59
  ∧ iso_z_shape (strftime_iso_z sample_time) = true.
Proof.
  destruct sample_time_valid as (Hy & Hm & Hd & Hh & Hmi & Hs).
  repeat (split; [assumption|]).
  by apply (strftime_iso_z_shape sample_time).
Defined.

Lemma sample_write_returns :
  write_rules_to_file sample_time
    (PyList (PyStr <$> [lit "ruleA"; lit "ruleB"; lit "ruleC"]))
    (PyStr (lit "out")) empty_disk
  = (Ok (),
     (write_rules_to_file sample_time
        (PyList (PyStr <$> [lit "ruleA"; lit "ruleB"; lit "ruleC"]))
        (PyStr (lit "out")) empty_disk).2).
Proof.
  assert (H : (write_rules_to_file sample_time
                 (PyList (PyStr <$> [lit "ruleA"; lit "ruleB"; lit "ruleC"]))
                 (PyStr (lit "out")) empty_disk).1 = Ok ())
    by (vm_compute; reflexivity).
  destruct (write_rules_to_file _ _ _ empty_disk). simpl in H. by rewrite H.
Qed.

Lemma written_file_lines_witness :
  write_rules_to_file sample_time
    (PyList (PyStr <$> [lit "ruleA"; lit "ruleB"; lit "ruleC"]))
    (PyStr (lit "out")) empty_disk
  = (Ok (),
     (write_rules_to_file sample_time
        (PyList (PyStr <$> [lit "ruleA"; lit "ruleB"; lit "ruleC"]))
        (PyStr (lit "out")) empty_disk).2)
  ∧ Forall (fun l => no_line_boundary l = true)
      [lit "ruleA"; lit "ruleB"; lit "ruleC"]
  ∧ ∃ file,
      files (write_rules_to_file sample_time
               (PyList (PyStr <$> [lit "ruleA"; lit "ruleB"; lit "ruleC"]))
               (PyStr (lit "out")) empty_disk).2 !! lit "out"
      = Some file
      ∧ splitlines file
        = [ lit "# Updated time: " ++ strftime_iso_z sample_time;
            lit "# Total rules: "
            ++ str_of_N (N.of_nat (length [lit "ruleA"; lit "ruleB"; lit "ruleC"]));
            lit "# Thanks: adrules.top and whatshub.top";
            [] ] ++ [lit "ruleA"; lit "ruleB"; lit "ruleC"].
Proof.
  assert (H : Forall (fun l => no_line_boundary l = true)
                [lit "ruleA"; lit "ruleB"; lit "ruleC"])
    by (repeat constructor).
  split; [exact sample_write_returns|]. split; [exact H|].
  apply (written_file_lines sample_time _ _ _ _ sample_write_returns H).
Defined.

Lemma written_file_merges_to_same_rules_witness :
  merge_and_deduplicate_rules unicode_lower_fragment (PyList scenario_sources)
  = Ok [lit "ruleA"; lit "ruleB"; lit "ruleC"]
  ∧ Forall (fun l => no_line_boundary l = true)
      [lit "ruleA"; lit "ruleB"; lit "ruleC"]
  ∧ write_rules_to_file sample_time
      (PyList (PyStr <$> [lit "ruleA"; lit "ruleB"; lit "ruleC"]))
      (PyStr (lit "out")) empty_disk
    = (Ok (),
       (write_rules_to_file sample_time
          (PyList (PyStr <$> [lit "ruleA"; lit "ruleB"; lit "ruleC"]))
          (PyStr (lit "out")) empty_disk).2)
  ∧ ∃ file,
      files (write_rules_to_file sample_time
               (PyList (PyStr <$> [lit "ruleA"; lit "ruleB"; lit "ruleC"]))
               (PyStr (lit "out")) empty_disk).2 !! lit "out"
      = Some file
      ∧ merge_and_deduplicate_rules unicode_lower_fragment
          (PyList [PyList (PyStr <$> splitlines file)])
        = Ok [lit "ruleA"; lit "ruleB"; lit "ruleC"].
Proof.
  assert (H1 : merge_and_deduplicate_rules unicode_lower_fragment
                 (PyList scenario_sources)
               = Ok [lit "ruleA"; lit "ruleB"; lit "ruleC"])
    by (vm_compute; reflexivity).
  assert (H2 : Forall (fun l => no_line_boundary l = true)
                 [lit "ruleA"; lit "ruleB"; lit "ruleC"])
    by (repeat constructor).
  split; [exact H1|]. split; [exact H2|]. split; [exact sample_write_returns|].
  apply (written_file_merges_to_same_rules unicode_lower_fragment sample_time
           scenario_sources _ _ _ _ H1 H2 sample_write_returns).
Defined.

Lemma main_stops_at_first_failed_fetch_witness :
  RULE_URLS
  = [lit "https://adrules.top/adrules-surge.conf"]
    ++ lit "https://whatshub.top/rule/AntiAD.list" :: []
  ∧ Forall (fun v => ∃ l, fetch_lines_from_url sample_request_ok
                            sample_urlopen_second_down (PyStr v) = Ok l)
      [lit "https://adrules.top/adrules-surge.conf"]
  ∧ (∃ e, fetch_lines_from_url sample_request_ok sample_urlopen_second_down
            (PyStr (lit "https://whatshub.top/rule/AntiAD.list")) = Raise e)
  ∧ main unicode_lower_fragment sample_request_ok sample_urlopen_second_down
      sample_time empty_disk
    = (Exit1 (FetchFailed (lit "https://whatshub.top/rule/AntiAD.list")),
       empty_disk)
  ∧ exit_status (main unicode_lower_fragment sample_request_ok
                   sample_urlopen_second_down sample_time empty_disk).1 = 1%Z.
Proof.
  assert (H1 : Forall (fun v => ∃ l, fetch_lines_from_url sample_request_ok
                  sample_urlopen_second_down (PyStr v) = Ok l)
                 [lit "https://adrules.top/adrules-surge.conf"]).
  { constructor; [|constructor]. eexists. vm_compute. reflexivity. }
  assert (H2 : ∃ e, fetch_lines_from_url sample_request_ok
                 sample_urlopen_second_down
                 (PyStr (lit "https://whatshub.top/rule/AntiAD.list")) = Raise e).
  { exists RuntimeError. vm_compute. reflexivity. }
  split; [reflexivity|]. split; [exact H1|]. split; [exact H2|].
  apply (main_stops_at_first_failed_fetch unicode_lower_fragment
           sample_request_ok sample_urlopen_second_down sample_time empty_disk
           [lit "https://adrules.top/adrules-surge.conf"]
           (lit "https://whatshub.top/rule/AntiAD.list") [] eq_refl H1 H2).
Defined.

Lemma main_writes_merged_rules_witness :
  fetch_lines_from_url sample_request_ok sample_urlopen
    (PyStr (lit "https://adrules.top/adrules-surge.conf"))
  = Ok [lit "! Title"; lit "||a.example^"; []; lit "||b.example^"]
  ∧ fetch_lines_from_url sample_request_ok sample_urlopen
      (PyStr (lit "https://whatshub.top/rule/AntiAD.list"))
    = Ok [lit "||b.example^"; lit "# c"; lit " ||c.example^ "]
  ∧ can_store empty_disk (lit "FuckAD.conf")
  ∧ ∃ merged,
      merge_and_deduplicate_rules unicode_lower_fragment
        (PyList [PyList (PyStr <$> [lit "! Title"; lit "||a.example^"; [];
                                    lit "||b.example^"]);
                 PyList (PyStr <$> [lit "||b.example^"; lit "# c";
                                    lit " ||c.example^ "])])
      = Ok merged
      ∧ main unicode_lower_fragment sample_request_ok sample_urlopen
          sample_time empty_disk
        = (Done,
           set_file (lit "FuckAD.conf") (expected_file sample_time merged)
             empty_disk).
Proof.
  assert (H3 : can_store empty_disk (lit "FuckAD.conf"))
    by (by apply empty_disk_can_store).
  split; [vm_compute; reflexivity|]. split; [vm_compute; reflexivity|].
  split; [exact H3|].
  apply (main_writes_merged_rules unicode_lower_fragment sample_request_ok
           sample_urlopen sample_time empty_disk);
    [vm_compute; reflexivity|vm_compute; reflexivity|exact H3].
Defined.

Lemma main_exit_status_zero_only_if_witness :
  exit_status (main unicode_lower_fragment sample_request_ok sample_urlopen
                 sample_time empty_disk).1 = 0%Z
  ∧ Forall (fun u => ∃ l, fetch_lines_from_url sample_request_ok sample_urlopen
                            (PyStr u) = Ok l)
      RULE_URLS
  ∧ open_error empty_disk OUTPUT_FILE = None
  ∧ writable empty_disk OUTPUT_FILE = true.
Proof.
  assert (H : exit_status (main unicode_lower_fragment sample_request_ok
                sample_urlopen sample_time empty_disk).1 = 0%Z)
    by (vm_compute; reflexivity).
  split; [exact H|].
  apply (main_exit_status_zero_only_if unicode_lower_fragment sample_request_ok
           sample_urlopen sample_time empty_disk H).
Defined.

Lemma main_touches_output_file_only_witness :
  lit "other" ≠ OUTPUT_FILE
  ∧ files (main unicode_lower_fragment sample_request_ok sample_urlopen
             sample_time empty_disk).2
      !! lit "other"
    = files empty_disk !! lit "other"
  ∧ writable (main unicode_lower_fragment sample_request_ok sample_urlopen
                sample_time empty_disk).2
    = writable empty_disk.
Proof.
  assert (H : lit "other" ≠ OUTPUT_FILE)
    by (intros E; vm_compute in E; discriminate).
  split; [exact H|].
  apply (main_touches_output_file_only unicode_lower_fragment sample_request_ok
           sample_urlopen sample_time empty_disk (lit "other") H).
Defined.

Lemma sample_main_done :
  main unicode_lower_fragment sample_request_ok sample_urlopen sample_time
    empty_disk
  = (Done, (main unicode_lower_fragment sample_request_ok sample_urlopen
              sample_time empty_disk).2).
Proof.
  assert (H : (main unicode_lower_fragment sample_request_ok sample_urlopen
                 sample_time empty_disk).1 = Done) by (vm_compute; reflexivity).
  destruct (main unicode_lower_fragment sample_request_ok sample_urlopen
              sample_time empty_disk).
  simpl in H. by rewrite H.
Qed.

Lemma main_output_reads_back_witness :
  main unicode_lower_fragment sample_request_ok sample_urlopen sample_time
    empty_disk
  = (Done, (main unicode_lower_fragment sample_request_ok sample_urlopen
              sample_time empty_disk).2)
  ∧ ∃ merged,
      files (main unicode_lower_fragment sample_request_ok sample_urlopen
               sample_time empty_disk).2
        !! OUTPUT_FILE
      = Some (expected_file sample_time merged)
      ∧ merge_and_deduplicate_rules unicode_lower_fragment
          (PyList [PyList (PyStr <$> splitlines (expected_file sample_time merged))])
        = Ok merged.
Proof.
  split; [apply sample_main_done|].
  apply (main_output_reads_back unicode_lower_fragment sample_request_ok
           sample_urlopen sample_time empty_disk _ sample_main_done).
Defined.

(** ** The writer's contract on concrete inputs *)


